(** * tarotApp backend: prompt building and output normalization

    Shallow embedding of [src/backend/main.py]: the request model, the
    prompt builder [build_prompt], the regex guardrail [normalize_output]
    and the route handler [interpret_spread], followed by the properties
    stated about them.

    Python [str] values are sequences of Unicode code points, so a string
    is a [list N] here.  Both [str.strip] and the regex class [\s] look at
    code points (not bytes), which is why the UTF-8 bytes of a literal are
    decoded first. *)

From Stdlib Require Import List NArith Bool Ascii String Lia PeanoNat.
Import ListNotations.

Local Open Scope N_scope.
Local Open Scope list_scope.

(* ================================================================= *)
(** ** Strings *)

Module Str.

Definition str := list N.

(** UTF-8 decoding of the bytes of a literal, one to four bytes per code
    point. *)
Fixpoint utf8_decode (bs : list N) : str :=
  match bs with
  | [] => []
  | b0 :: r0 =>
      if b0 <? 128 then b0 :: utf8_decode r0
      else if b0 <? 224 then
        match r0 with
        | b1 :: r1 => ((b0 - 192) * 64 + (b1 - 128)) :: utf8_decode r1
        | _ => []
        end
      else if b0 <? 240 then
        match r0 with
        | b1 :: b2 :: r2 =>
            ((b0 - 224) * 4096 + (b1 - 128) * 64 + (b2 - 128)) :: utf8_decode r2
        | _ => []
        end
      else
        match r0 with
        | b1 :: b2 :: b3 :: r3 =>
            ((b0 - 240) * 262144 + (b1 - 128) * 4096 + (b2 - 128) * 64 + (b3 - 128))
              :: utf8_decode r3
        | _ => []
        end
  end.

Definition lit (s : string) : str :=
  utf8_decode (map N_of_ascii (list_ascii_of_string s)).

Definition nl : N := 10.          (* "\n" *)
Definition dquote : N := 34.      (* the double quote character *)
Definition em_dash : N := 8212.   (* U+2014 *)

Definition eqb (a b : str) : bool :=
  if list_eq_dec N.eq_dec a b then true else false.

(** [str.isspace] for one character, which is also what [\s] matches in a
    Unicode ([str]) pattern: CPython's [_PyUnicode_IsWhitespace]. *)
Definition isspace (c : N) : bool :=
  ((9 <=? c) && (c <=? 13)) || ((28 <=? c) && (c <=? 32))
  || (c =? 133) || (c =? 160) || (c =? 5760)
  || ((8192 <=? c) && (c <=? 8202))
  || (c =? 8232) || (c =? 8233) || (c =? 8239) || (c =? 8287) || (c =? 12288).

Fixpoint drop_while (p : N -> bool) (s : str) : str :=
  match s with
  | [] => []
  | c :: s' => if p c then drop_while p s' else s
  end.

Fixpoint take_while (p : N -> bool) (s : str) : str :=
  match s with
  | [] => []
  | c :: s' => if p c then c :: take_while p s' else []
  end.

Definition lstrip (s : str) : str := drop_while isspace s.
Definition rstrip (s : str) : str := rev (drop_while isspace (rev s)).

(** [s.strip()] *)
Definition strip (s : str) : str := rstrip (lstrip s).

Fixpoint starts_with (p s : str) : bool :=
  match p, s with
  | [], _ => true
  | a :: p', b :: s' => (a =? b) && starts_with p' s'
  | _ :: _, [] => false
  end.

(** [needle in hay] *)
Fixpoint contains (needle hay : str) : bool :=
  starts_with needle hay ||
  match hay with
  | [] => false
  | _ :: hay' => contains needle hay'
  end.

(** [sep.join(parts)] *)
Fixpoint join (sep : str) (parts : list str) : str :=
  match parts with
  | [] => []
  | [p] => p
  | p :: ps => p ++ sep ++ join sep ps
  end.

(** [s.split("\n")]: the lines of [s]. *)
Fixpoint split_lines (s : str) : list str :=
  match s with
  | [] => [[]]
  | c :: s' =>
      if c =? nl then [] :: split_lines s'
      else match split_lines s' with
           | l :: ls => (c :: l) :: ls
           | [] => [[c]]
           end
  end.

Definition is_empty (s : str) : bool :=
  match s with [] => true | _ => false end.

End Str.

Import Str.

(* ================================================================= *)
(** ** Request model and exceptions *)

Record TarotCardInput := {
  name : str;
  suit : option str;
  number : option N;
  position : str;
  is_reversed : bool;
  upright_meaning : str;
  reversed_meaning : str;
  keywords : option str;
  imageName : option str;
  arcana : option str
}.

Record SpreadRequest := {
  spread_type : str;
  cards : list TarotCardInput
}.

Record SpreadResponse := { interpretation : str }.

Inductive exn :=
| IndexError                                      (* req.cards[0] on an empty list *)
| HTTPException (status_code : N) (detail : str).

Inductive result (A : Type) :=
| Ok (a : A)
| Raise (e : exn).
Arguments Ok {A} a.
Arguments Raise {A} e.

(* ================================================================= *)
(** ** Prompt building *)

(** [(req.spread_type == "daily") or (n == 1)], as both [build_prompt]
    and [normalize_output] compute it. *)
Definition is_daily (req : SpreadRequest) : bool :=
  let n := List.length (cards req) in
  Str.eqb (spread_type req) (lit "daily") || (n =? 1)%nat.

Definition orientation (c : TarotCardInput) : str :=
  if is_reversed c then lit "Reversed" else lit "Upright".

Definition meaning (c : TarotCardInput) : str :=
  if is_reversed c then reversed_meaning c else upright_meaning c.

Definition greetings_rule : str :=
  lit "- Do NOT include greetings or filler like "
  ++ [dquote] ++ lit "Certainly!" ++ [dquote] ++ lit ", "
  ++ [dquote] ++ lit "Sure!" ++ [dquote] ++ lit ", "
  ++ [dquote] ++ lit "Of course!" ++ [dquote] ++ lit ".".

(** The f-string of the daily branch, before [.strip()].  The triple-quoted
    literal opens and closes with a newline, hence the empty first and
    last lines. *)
Definition daily_template (c : TarotCardInput) : str :=
  join [nl] [
    [];
    lit "You are a tarot reader. Write an interpretation for a SINGLE CARD daily draw.";
    [];
    lit "STRICT RULES:";
    lit "- Do NOT use Past/Present/Future.";
    greetings_rule;
    lit "- Do NOT mention that you're an AI.";
    lit "- Output ONLY in this exact structure:";
    [];
    lit "**Daily Card — " ++ name c ++ lit " (" ++ orientation c ++ lit "):**";
    lit "<1–2 short paragraphs>";
    [];
    lit "**Overall Message:**";
    lit "<1 short paragraph>";
    [];
    lit "Card meaning reference (use as guidance, do not quote verbatim):";
    meaning c;
    []
  ].

Definition multi_preamble : list str := [
  lit "You are a tarot reader. Interpret the following spread.";
  [];
  lit "STRICT RULES:";
  greetings_rule;
  lit "- For EACH card, output exactly one section in this format:";
  lit "  **<Position> — <Card Name> (<Upright/Reversed>):**";
  lit "  <1 paragraph interpretation>";
  lit "- End with:";
  lit "  **Putting It All Together:**";
  lit "  <1 paragraph synthesis>";
  [];
  lit "CARDS:"
].

Definition card_line (c : TarotCardInput) : str :=
  lit "- Position: " ++ position c ++ lit " | Card: " ++ name c
  ++ lit " | Orientation: " ++ orientation c
  ++ lit " | MeaningRef: " ++ meaning c.

Definition build_prompt (req : SpreadRequest) : result str :=
  let n := List.length (cards req) in
  let is_daily := Str.eqb (spread_type req) (lit "daily") || (n =? 1)%nat in
  if is_daily then
    match cards req with
    | [] => Raise IndexError
    | c :: _ => Ok (strip (daily_template c))
    end
  else
    let lines := multi_preamble ++ map card_line (cards req) in
    Ok (join [nl] lines).

(* ================================================================= *)
(** ** Regular expressions

    A backtracking matcher in the style of Python's [re] engine for the
    constructs the two patterns of [normalize_output] use: start anchor,
    one-character sets, sequence, ordered alternation, and greedy or lazy
    repetition of a one-character set.  Alternatives are tried left to
    right, a greedy repetition tries the longest run first and a lazy one
    the shortest; the first complete match wins.  Groups only capture, and
    no replacement refers to a group, so they are transparent here. *)

Module Re.

Inductive regex :=
| Bos                          (* ^ (no MULTILINE): start of the subject *)
| Chr (p : N -> bool)          (* a literal, a class such as \s or [^\n], or . *)
| Eps
| Seq (r1 r2 : regex)
| Alt (r1 r2 : regex)          (* r1|r2 *)
| Star (p : N -> bool)         (* X*  for a one-character X *)
| StarLazy (p : N -> bool).    (* X*? for a one-character X *)

Definition Plus (p : N -> bool) : regex := Seq (Chr p) (Star p).   (* X+ *)
Definition Opt (r : regex) : regex := Alt r Eps.                   (* r? *)

Fixpoint star_greedy (p : N -> bool) (s : str) (k : str -> option str)
  : option str :=
  match s with
  | c :: s' =>
      if p c then
        match star_greedy p s' k with
        | Some rest => Some rest
        | None => k s
        end
      else k s
  | [] => k []
  end.

Fixpoint star_lazy (p : N -> bool) (s : str) (k : str -> option str)
  : option str :=
  match k s with
  | Some rest => Some rest
  | None =>
      match s with
      | c :: s' => if p c then star_lazy p s' k else None
      | [] => None
      end
  end.

(** [m r at_start s k]: match [r] against a prefix of [s], then continue
    with [k] on what is left; [None] when every choice fails.  [at_start]
    says that [s] is the whole subject. *)
Fixpoint m (r : regex) (at_start : bool) (s : str) (k : str -> option str)
  : option str :=
  match r with
  | Bos => if at_start then k s else None
  | Chr p =>
      match s with
      | c :: s' => if p c then k s' else None
      | [] => None
      end
  | Eps => k s
  | Seq r1 r2 =>
      m r1 at_start s
        (fun s' => m r2 (at_start && (List.length s' =? List.length s)%nat) s' k)
  | Alt r1 r2 =>
      match m r1 at_start s k with
      | Some rest => Some rest
      | None => m r2 at_start s k
      end
  | Star p => star_greedy p s k
  | StarLazy p => star_lazy p s k
  end.

(** The text after the match of [r] at the head of [s], if there is one. *)
Definition match_at (r : regex) (at_start : bool) (s : str) : option str :=
  m r at_start s Some.

(** [re.sub] with the empty replacement: scan left to right, drop each
    match and resume after it; where nothing matches, or the match is
    empty, the character is kept.  Every round consumes at least one
    character, so [length s] rounds are enough ([sub_loop_fuel] below). *)
Fixpoint sub_loop (fuel : nat) (r : regex) (at_start : bool) (s : str) : str :=
  match fuel with
  | O => s
  | S fuel' =>
      match s with
      | [] => []
      | c :: s' =>
          match match_at r at_start s with
          | Some rest =>
              if (List.length rest <? List.length s)%nat
              then sub_loop fuel' r false rest
              else c :: sub_loop fuel' r false s'
          | None => c :: sub_loop fuel' r false s'
          end
      end
  end.

Definition sub_del (r : regex) (s : str) : str :=
  sub_loop (List.length s) r true s.

(** Does [r] match somewhere in [s]? *)
Fixpoint finds (r : regex) (at_start : bool) (s : str) : bool :=
  match match_at r at_start s with
  | Some _ => true
  | None =>
      match s with
      | [] => false
      | _ :: s' => finds r false s'
      end
  end.

Definition has_match (r : regex) (s : str) : bool := finds r true s.

(** *** Character sets *)

Definition is_nl (c : N) : bool := c =? nl.
Definition not_nl (c : N) : bool := negb (c =? nl).   (* [^\n], and . without DOTALL *)
Definition is_chr (a : N) (c : N) : bool := c =? a.

Definition lower_ascii (c : N) : N :=
  if (65 <=? c) && (c <=? 90) then c + 32 else c.

(** A literal [a] of a [str] pattern compiled with [re.IGNORECASE], for an
    ASCII or uncased [a]: the subject character [c] matches when its
    lower-case form is that of [a], or when it is one of the extra
    equivalents of sre's table.  The only characters outside ASCII whose
    lower-case form is an ASCII letter are U+0130 (i) and U+212A (k); the
    table adds U+0131 for i and U+017F for s. *)
Definition ci (a : N) (c : N) : bool :=
  let lo := lower_ascii a in
  (lower_ascii c =? lo)
  || ((lo =? 105) && ((c =? 304) || (c =? 305)))
  || ((lo =? 115) && (c =? 383))
  || ((lo =? 107) && (c =? 8490)).

(** A literal word, case-insensitively. *)
Fixpoint word (w : str) : regex :=
  match w with
  | [] => Eps
  | a :: w' => Seq (Chr (ci a)) (word w')
  end.

Fixpoint alternatives (rs : list regex) : regex :=
  match rs with
  | [] => Chr (fun _ => false)
  | [r] => r
  | r :: rs' => Alt r (alternatives rs')
  end.

End Re.

Import Re.

(* ================================================================= *)
(** ** Output normalization (guardrail) *)

Definition openers : list str :=
  [lit "Certainly!"; lit "Sure!"; lit "Of course!"; lit "Absolutely!";
   lit "Okay!"; lit "Alright!"].

(** The opener pattern of [normalize_output], compiled with
    [re.IGNORECASE]; each piece is shown next to its node. *)
Definition opener_re : regex :=
  Seq Bos                                      (* ^ *)
  (Seq (Star isspace)                          (* \s* *)
  (Seq (alternatives (map word openers))       (* (Certainly!|Sure!|Of course!|Absolutely!|Okay!|Alright!) *)
  (Seq (Star not_nl)                           (* [^\n]* *)
       (Plus is_nl)))).                        (* \n+ *)

(** The Past/Present/Future heading pattern of the daily branch, compiled
    with [re.IGNORECASE]. *)
Definition heading_re : regex :=
  Seq (word (lit "**"))                                    (* \*\* *)
  (Seq (Star isspace)                                      (* \s* *)
  (Seq (alternatives
          (map word [lit "Past"; lit "Present"; lit "Future"]))   (* (Past|Present|Future) *)
  (Seq (Star isspace)                                      (* \s* *)
  (Seq (Chr (ci em_dash))                                  (* the em dash *)
  (Seq (StarLazy not_nl)                                   (* .*? *)
  (Seq (word (lit "**"))                                   (* \*\* *)
  (Seq (Opt (Chr (ci 58)))                                 (* :? *)
       (Star isspace)))))))).                              (* group of \s* *)

Definition daily_header (c : TarotCardInput) : str :=
  lit "**Daily Card — " ++ name c ++ lit " (" ++ orientation c ++ lit "):**".

Definition normalize_output (req : SpreadRequest) (text : str) : result str :=
  let n := List.length (cards req) in
  let is_daily := Str.eqb (spread_type req) (lit "daily") || (n =? 1)%nat in
  let text := strip (sub_del opener_re text) in
  if is_daily then
    let text := strip (sub_del heading_re text) in
    if negb (contains (lit "**Daily Card") text) then
      match cards req with
      | [] => Raise IndexError
      | c :: _ =>
          let text := strip (daily_header c ++ [nl] ++ text) in
          Ok (strip text)
      end
    else Ok (strip text)
  else Ok (strip text).

(* ================================================================= *)
(** ** Route

    The handler talks to one collaborator, [client.responses.create].  The
    collaborator is a parameter of the model; what the handler does is
    recorded as a trace of events, so that "no call was made" and "called
    once" are statements about the trace. *)

Record create_args := {
  model : str;
  input : str;
  max_output_tokens : N
}.

(** The parts of the provider's answer the handler reads with [getattr];
    a missing attribute is [None]. *)
Record content_part := { text : option str }.

Record output_item := {
  type : option str;
  content : option (list content_part)
}.

Record completion := { output : option (list output_item) }.

(** The call either returns a completion or raises an [Exception] whose
    [str()] is [message]. *)
Inductive outcome :=
| Returned (c : completion)
| Raised (message : str).

Inductive event :=
| EvBuildPrompt                       (* build_prompt(req) was evaluated *)
| EvResponsesCreate (args : create_args).

(** Trace and exceptions: a computation extends the trace and either
    yields a value or raises. *)
Definition M (A : Type) : Type := list event -> list event * result A.

Definition ret {A} (a : A) : M A := fun tr => (tr, Ok a).

Definition raise {A} (e : exn) : M A := fun tr => (tr, Raise e).

Definition bind {A B} (c : M A) (f : A -> M B) : M B :=
  fun tr =>
    match c tr with
    | (tr', Ok a) => f a tr'
    | (tr', Raise e) => (tr', Raise e)
    end.

Definition emit (e : event) : M unit := fun tr => (tr ++ [e], Ok tt).

Definition lift {A} (r : result A) : M A := fun tr => (tr, r).

Notation "x <- c ;; k" := (bind c (fun x => k))
  (at level 61, c at next level, right associativity).
Notation "c ;;; k" := (bind c (fun _ => k))
  (at level 61, right associativity).

(** The [try: ... except Exception as e: raise HTTPException(500, ...)]
    around the one outbound call. *)
Definition responses_create (client : create_args -> outcome)
    (args : create_args) : M completion :=
  emit (EvResponsesCreate args) ;;;
  match client args with
  | Returned c => ret c
  | Raised e =>
      raise (HTTPException 500 (lit "OpenAI request failed: " ++ e))
  end.

(** The inner loop over [getattr(item, "content", []) or []]: the truthy
    [text] attributes, in order. *)
Fixpoint part_texts (parts : list content_part) : list str :=
  match parts with
  | [] => []
  | part :: parts' =>
      match text part with
      | Some (c :: t) => (c :: t) :: part_texts parts'
      | _ => part_texts parts'
      end
  end.

Definition is_message (item : output_item) : bool :=
  match type item with
  | Some ty => Str.eqb ty (lit "message")
  | None => false
  end.

Fixpoint item_texts (items : list output_item) : list str :=
  match items with
  | [] => []
  | item :: items' =>
      (if is_message item
       then part_texts (match content item with Some ps => ps | None => [] end)
       else [])
      ++ item_texts items'
  end.

Definition text_parts (c : completion) : list str :=
  match output c with
  | Some items => item_texts items
  | None => []
  end.

Definition fallback : str :=
  lit "I'm sorry, I couldn't interpret this spread right now.".

Definition system_preamble : str :=
  lit "You are a tarot reader. Be warm, clear, and realistic. "
  ++ lit "Follow the user-provided STRICT RULES exactly." ++ [nl; nl].

Definition interpret_spread (client : create_args -> outcome)
    (req : SpreadRequest) : M SpreadResponse :=
  match cards req with
  | [] => raise (HTTPException 400 (lit "No cards provided"))
  | _ :: _ =>
      emit EvBuildPrompt ;;;
      prompt <- lift (build_prompt req) ;;
      completion <- responses_create client
        {| model := lit "gpt-4.1-mini";
           input := system_preamble ++ prompt;
           max_output_tokens := 700 |} ;;
      let text := strip (List.concat (text_parts completion)) in
      let text := if is_empty text then fallback else text in
      text <- lift (normalize_output req text) ;;
      ret {| interpretation := text |}
  end.

(** A string can be written into a JSON answer when it encodes as UTF-8,
    that is, when it holds no lone surrogate (U+D800 to U+DFFF). *)
Definition is_surrogate (c : N) : bool := (55296 <=? c) && (c <=? 57343).

Definition encodable (s : str) : bool :=
  forallb (fun c => negb (is_surrogate c)) s.

(** What the caller of the endpoint sees. *)
Inductive http_body :=
| Interpretation (s : str)          (* {"interpretation": s} *)
| Detail (s : str)                  (* {"detail": s} *)
| InternalServerError.              (* the plain answer of the framework to a failure *)

Record http_response := { status : N; body : http_body }.

(** The framework turns what the handler returned or raised into the
    answer: a [SpreadResponse] into 200 with its JSON, an [HTTPException]
    into its status with the detail as JSON, and anything it cannot
    handle (another exception, or a string that cannot be encoded while
    the JSON is rendered) into a plain 500. *)
Definition respond (r : result SpreadResponse) : http_response :=
  match r with
  | Ok resp =>
      if encodable (interpretation resp)
      then {| status := 200; body := Interpretation (interpretation resp) |}
      else {| status := 500; body := InternalServerError |}
  | Raise (HTTPException code d) =>
      if encodable d
      then {| status := code; body := Detail d |}
      else {| status := 500; body := InternalServerError |}
  | Raise IndexError => {| status := 500; body := InternalServerError |}
  end.

(** One request served from an empty trace. *)
Definition serve (client : create_args -> outcome) (req : SpreadRequest)
  : list event * http_response :=
  let (tr, r) := interpret_spread client req [] in (tr, respond r).

Definition calls (tr : list event) : list create_args :=
  flat_map (fun e => match e with EvResponsesCreate a => [a] | _ => [] end) tr.

(* ================================================================= *)
(** ** Vocabulary of the statements *)

(** [needle] occurs in [hay]. *)
Definition substring (needle hay : str) : Prop :=
  exists a b, hay = a ++ needle ++ b.

Definition prefix_of (p s : str) : Prop := exists r, s = p ++ r.
Definition suffix_of (p s : str) : Prop := exists r, s = r ++ p.

(** No whitespace at either end. *)
Definition no_outer_space (s : str) : Prop :=
  (forall c r, s = c :: r -> isspace c = false) /\
  (forall c r, s = r ++ [c] -> isspace c = false).

Definition no_newline (s : str) : bool := forallb not_nl s.

(** A line that opens like a card line of the multi-card prompt. *)
Definition position_line (l : str) : bool := starts_with (lit "- Position: ") l.

(** [w], compared case-insensitively, is how [s] begins. *)
Fixpoint ci_prefix (w s : str) : bool :=
  match w, s with
  | [], _ => true
  | a :: w', c :: s' => ci a c && ci_prefix w' s'
  | _ :: _, [] => false
  end.

Definition begins_with_opener (s : str) : bool :=
  existsb (fun w => ci_prefix w s) openers.

(** The opener rule in the words of the specification: after leading
    whitespace, a line that begins with one of the openers and is closed
    by at least one newline is removed together with the whitespace before
    it and every newline that directly follows it.  Otherwise the text is
    left alone. *)
Definition strip_opener_line (t : str) : str :=
  let line := drop_while isspace t in
  if begins_with_opener line then
    match drop_while not_nl line with
    | [] => t
    | after => drop_while is_nl after
    end
  else t.

(** The text the daily branch inspects for its header: after the opener
    and the Past/Present/Future headings are removed. *)
Definition cleaned_daily (t : str) : str :=
  strip (sub_del heading_re (strip (sub_del opener_re t))).

(** Sample data. *)
Definition card (nm pos : string) (rev : bool) (up down : str) : TarotCardInput :=
  {| name := lit nm; suit := None; number := None; position := lit pos;
     is_reversed := rev; upright_meaning := up; reversed_meaning := down;
     keywords := None; imageName := None; arcana := None |}.

Definition the_fool : TarotCardInput :=
  card "The Fool" "Today" false (lit "New beginnings.") (lit "Recklessness.").

Definition the_sun_reversed : TarotCardInput :=
  card "The Sun" "Today" true (lit "Joy and success.") (lit "Temporary sadness.").

Definition the_tower : TarotCardInput :=
  card "The Tower" "Past" false (lit "Sudden upheaval.") (lit "Fear of change.").

Definition the_star : TarotCardInput :=
  card "The Star" "Future" true (lit "Hope.") (lit "Loss of faith.").

Definition daily_fool : SpreadRequest :=
  {| spread_type := lit "daily"; cards := [the_fool] |}.

Definition daily_sun : SpreadRequest :=
  {| spread_type := lit "daily"; cards := [the_sun_reversed] |}.

Definition single_card_three_card_type : SpreadRequest :=
  {| spread_type := lit "three_card"; cards := [the_fool] |}.

Definition two_cards : SpreadRequest :=
  {| spread_type := lit "past_future"; cards := [the_tower; the_star] |}.

Definition no_cards : SpreadRequest :=
  {| spread_type := lit "daily"; cards := [] |}.

(** Collaborators used in the examples. *)
Definition failing_client (message : str) : create_args -> outcome :=
  fun _ => Raised message.

Definition message_answer (parts : list (option str)) : completion :=
  {| output := Some [ {| type := Some (lit "message");
                         content := Some (map (fun t => {| text := t |}) parts) |} ] |}.

Definition answering_client (parts : list (option str)) : create_args -> outcome :=
  fun _ => Returned (message_answer parts).

(** Ordered alternation over literal words, written out: the first word
    that begins [s] and whose continuation succeeds. *)
Fixpoint first_alt (ws : list str) (s : str) (k : str -> option str)
  : option str :=
  match ws with
  | [] => None
  | w :: ws' =>
      match (if ci_prefix w s then k (skipn (List.length w) s) else None) with
      | Some rest => Some rest
      | None => first_alt ws' s k
      end
  end.

(** What is left of [t] after the opener pattern matched at its head. *)
Definition opener_match (t : str) : option str :=
  let line := drop_while isspace t in
  if begins_with_opener line then
    match drop_while not_nl line with
    | [] => None
    | after => Some (drop_while is_nl after)
    end
  else None.

(** The pattern does not use the start anchor. *)
Fixpoint anchor_free (r : regex) : bool :=
  match r with
  | Bos => false
  | Seq r1 r2 | Alt r1 r2 => anchor_free r1 && anchor_free r2
  | _ => true
  end.

(** A continuation that succeeds on [s] still succeeds when the subject
    is longer by [ext]. *)
Definition ext_ok (ext : str) (k k' : str -> option str) : Prop :=
  forall s, k s <> None -> k' (s ++ ext) <> None.

(** The rest of the opener pattern once an opener word is read: the
    remainder of the line and the newlines that close it. *)
Definition line_tail (s : str) : option str :=
  match drop_while not_nl s with
  | [] => None
  | after => Some (drop_while is_nl after)
  end.

(** Printable ASCII, with or without the space. *)
Definition printable (a : N) : bool := (32 <=? a) && (a <=? 126).
Definition visible (a : N) : bool := (33 <=? a) && (a <=? 126).

Definition visible_head (w : str) : bool :=
  match w with
  | a :: _ => visible a
  | [] => false
  end.

(** The fixed text of the daily prompt on either side of the card's name
    and orientation. *)
Definition daily_intro : str :=
  join [nl] [
    lit "You are a tarot reader. Write an interpretation for a SINGLE CARD daily draw.";
    [];
    lit "STRICT RULES:";
    lit "- Do NOT use Past/Present/Future.";
    greetings_rule;
    lit "- Do NOT mention that you're an AI.";
    lit "- Output ONLY in this exact structure:";
    [];
    lit "**Daily Card — "
  ].

Definition daily_outro : str :=
  join [nl] [
    lit "):**";
    lit "<1–2 short paragraphs>";
    [];
    lit "**Overall Message:**";
    lit "<1 short paragraph>";
    [];
    lit "Card meaning reference (use as guidance, do not quote verbatim):"
  ].

(** The meaning text as it ends the daily prompt: on a line of its own,
    without its trailing whitespace, and with no line at all when nothing
    is left of it. *)
Definition meaning_tail (c : TarotCardInput) : str :=
  match rstrip (meaning c) with
  | [] => []
  | r => nl :: r
  end.

(** A card whose upright meaning ends with a newline. *)
Definition the_fool_multiline : TarotCardInput :=
  card "The Fool" "Today" false (lit "New beginnings." ++ [nl]) (lit "Recklessness.").

Definition daily_fool_multiline : SpreadRequest :=
  {| spread_type := lit "daily"; cards := [the_fool_multiline] |}.

(** The arguments of the one outbound call for a given prompt. *)
Definition request_args (prompt : str) : create_args :=
  {| model := lit "gpt-4.1-mini";
     input := system_preamble ++ prompt;
     max_output_tokens := 700 |}.

(** The header followed by the text on the next line, or the header alone
    when there is no text. *)
Definition under_header (c : TarotCardInput) (x : str) : str :=
  daily_header c ++ match x with [] => [] | _ => nl :: x end.

(** Position, name and selected meaning of a card fit on one line. *)
Definition one_line_card (c : TarotCardInput) : bool :=
  no_newline (position c) && no_newline (name c) && no_newline (meaning c).

(** A request whose second card carries a meaning of two lines, the second
    of which reads like a card line. *)
Definition the_star_two_lines : TarotCardInput :=
  card "The Star" "Future" false
    (lit "Hope." ++ [nl] ++ card_line the_fool) (lit "Loss of faith.").

Definition two_cards_three_lines : SpreadRequest :=
  {| spread_type := lit "past_future"; cards := [the_tower; the_star_two_lines] |}.

(** The raw text and the expected result of the opener example. *)
Definition opener_example_rest : str :=
  lit "**Daily Card — The Fool (Upright):**" ++ [nl] ++ lit "Text.".

Definition opener_example : str :=
  lit "Certainly! Here you go." ++ [nl; nl] ++ opener_example_rest.

(** A text with a Past heading written inside another one: removing the
    inner heading leaves a new heading behind. *)
Definition nested_heading_text : str :=
  lit "**Daily Card — The Fool (Upright):**" ++ [nl]
  ++ lit "**Pa**Past — x**st — later** Text.".

Definition nested_heading_once : str :=
  lit "**Daily Card — The Fool (Upright):**" ++ [nl]
  ++ lit "**Past — later** Text.".

Definition nested_heading_twice : str :=
  lit "**Daily Card — The Fool (Upright):**" ++ [nl] ++ lit "Text.".

(** ** Vocabulary of the further properties *)

(** What the prompt builder reads of a card. *)
Definition prompt_fields (c : TarotCardInput) : str * str * bool * str :=
  (name c, position c, is_reversed c, meaning c).

(** No asterisk in the text. *)
Definition no_star (s : str) : bool := forallb (fun c => negb (c =? 42)) s.

(** The text without the colon it may begin with. *)
Definition drop_colon (s : str) : str :=
  match s with
  | c :: r => if c =? 58 then r else s
  | [] => []
  end.

Definition heading_words : list str := [lit "Past"; lit "Present"; lit "Future"].

(** The heading pattern from its closing asterisks on, from its title on,
    from the dash on and from the keyword on. *)
Definition heading_close : regex :=
  Seq (word (lit "**")) (Seq (Opt (Chr (ci 58))) (Star isspace)).

Definition heading_title : regex := Seq (StarLazy not_nl) heading_close.

Definition heading_dash : regex :=
  Seq (Star isspace) (Seq (Chr (ci em_dash)) heading_title).

Definition heading_keyword : regex :=
  Seq (alternatives (map word heading_words)) heading_dash.

(** The text of a content part, empty when the attribute is missing. *)
Definition text_or_empty (part : content_part) : str :=
  match text part with
  | Some s => s
  | None => []
  end.

(** The text one output item contributes. *)
Definition item_text (item : output_item) : str :=
  if is_message item
  then List.concat (map text_or_empty
                      (match content item with Some ps => ps | None => [] end))
  else [].

(** The text the handler normalizes for a given answer. *)
Definition answer_text (answer : completion) : str :=
  if is_empty (strip (List.concat (text_parts answer)))
  then fallback
  else strip (List.concat (text_parts answer)).

(** Further sample data. *)
Definition no_cards_three_card_type : SpreadRequest :=
  {| spread_type := lit "three_card"; cards := [] |}.

Definition daily_two_cards : SpreadRequest :=
  {| spread_type := lit "daily"; cards := [the_fool; the_star] |}.

Definition the_fool_annotated : TarotCardInput :=
  {| name := lit "The Fool"; suit := Some (lit "Major"); number := Some 0;
     position := lit "Today"; is_reversed := false;
     upright_meaning := lit "New beginnings.";
     reversed_meaning := lit "Something else entirely.";
     keywords := Some (lit "leap"); imageName := Some (lit "fool.png");
     arcana := Some (lit "major") |}.

(** A card whose name is a lone surrogate, and a text made of one. *)
Definition lone_surrogate : str := [55296].

Definition the_unnamed : TarotCardInput :=
  {| name := lone_surrogate; suit := None; number := None;
     position := lit "Today"; is_reversed := false;
     upright_meaning := lit "Unknown."; reversed_meaning := lit "Unknown.";
     keywords := None; imageName := None; arcana := None |}.

Definition daily_unnamed : SpreadRequest :=
  {| spread_type := lit "daily"; cards := [the_unnamed] |}.

(** A daily answer with one Past heading. *)
Definition one_heading_text : str :=
  lit "**Daily Card — The Fool (Upright):**" ++ [nl]
  ++ lit "**Past — x** Text.".

(** A continuation that never returns more text than it was given. *)
Definition never_longer (k : str -> option str) : Prop :=
  forall s v, k s = Some v -> (List.length v <= List.length s)%nat.

(* ================================================================= *)
(** * The model on concrete inputs *)

Example lit_em_dash : lit "—" = [em_dash].
Proof. reflexivity. Qed.

Example lit_en_dash : lit "1–2" = [49; 8211; 50].
Proof. reflexivity. Qed.

Example strip_ascii : strip (lit "  a b  ") = lit "a b".
Proof. reflexivity. Qed.

Example strip_no_break_space : strip ([160] ++ lit "x" ++ [12288]) = lit "x".
Proof. reflexivity. Qed.

Example zero_width_space_stays : strip ([32; 8203; 32]) = [8203].
Proof. reflexivity. Qed.

Example ci_long_s : ci 83 383 = true /\ ci 107 8490 = true /\ ci 105 304 = true.
Proof. repeat split. Qed.

Example ci_not_a_letter : ci 33 33 = true /\ ci 33 1 = false /\ ci 32 0 = false.
Proof. repeat split. Qed.

Example opener_lower_case :
  sub_del opener_re (lit "  sure! ok" ++ [nl; nl; nl] ++ lit "rest" ++ [nl])
  = lit "rest" ++ [nl].
Proof. vm_compute. reflexivity. Qed.

Example opener_after_blank_lines :
  sub_del opener_re ([nl; nl] ++ lit "OF COURSE!" ++ [nl] ++ lit "Text") = lit "Text".
Proof. vm_compute. reflexivity. Qed.

Example opener_without_newline :
  sub_del opener_re (lit "Sure! no newline") = lit "Sure! no newline".
Proof. vm_compute. reflexivity. Qed.

Example opener_not_first :
  sub_del opener_re (lit "Well, sure!" ++ [nl] ++ lit "Text")
  = lit "Well, sure!" ++ [nl] ++ lit "Text".
Proof. vm_compute. reflexivity. Qed.

Example heading_removed :
  sub_del heading_re (lit "**Past — The Tower (Upright):** Text") = lit "Text".
Proof. vm_compute. reflexivity. Qed.

Example heading_lazy :
  sub_del heading_re (lit "**Future—a**b**: c") = lit "b**: c".
Proof. vm_compute. reflexivity. Qed.

Example heading_with_colon :
  sub_del heading_re (lit "** PRESENT  — x**:" ++ [nl; nl] ++ lit "Text") = lit "Text".
Proof. vm_compute. reflexivity. Qed.

Example heading_on_two_lines :
  sub_del heading_re (lit "**Past — a" ++ [nl] ++ lit "b** Text")
  = lit "**Past — a" ++ [nl] ++ lit "b** Text".
Proof. vm_compute. reflexivity. Qed.

Example heading_nested :
  sub_del heading_re nested_heading_text = nested_heading_once.
Proof. vm_compute. reflexivity. Qed.

Example encodable_text :
  encodable (lit "timeout — ok") = true /\ encodable lone_surrogate = false.
Proof. split; reflexivity. Qed.

Example surrogate_name_plain_500 :
  snd (serve (answering_client []) daily_unnamed)
  = {| status := 500; body := InternalServerError |}.
Proof. vm_compute. reflexivity. Qed.

Example surrogate_text_plain_500 :
  snd (serve (answering_client [Some lone_surrogate]) two_cards)
  = {| status := 500; body := InternalServerError |}.
Proof. vm_compute. reflexivity. Qed.

(* ================================================================= *)
(** * Facts about strings *)

Section StringFacts.

Variable p : N -> bool.

Lemma take_drop_while (s : str) : take_while p s ++ drop_while p s = s.
Proof.
  induction s as [|c s IH]; simpl; [reflexivity|].
  destruct (p c); simpl; [now rewrite IH | reflexivity].
Qed.

Lemma take_while_all (s : str) : forallb p (take_while p s) = true.
Proof.
  induction s as [|c s IH]; simpl; [reflexivity|].
  destruct (p c) eqn:E; simpl; [now rewrite E | reflexivity].
Qed.

Lemma drop_while_head (s : str) c r : drop_while p s = c :: r -> p c = false.
Proof.
  induction s as [|d s IH]; simpl; [discriminate|].
  destruct (p d) eqn:E; [exact IH|].
  intros H; injection H as <- _; exact E.
Qed.

Lemma drop_while_idem (s : str) : drop_while p (drop_while p s) = drop_while p s.
Proof.
  destruct (drop_while p s) as [|c r] eqn:E; [reflexivity|].
  simpl. now rewrite (drop_while_head _ _ _ E).
Qed.

Lemma drop_while_all (s : str) : forallb p s = true -> drop_while p s = [].
Proof.
  induction s as [|c s IH]; simpl; [reflexivity|].
  destruct (p c); simpl; [exact IH | discriminate].
Qed.

Lemma drop_while_nil_all (s : str) : drop_while p s = [] -> forallb p s = true.
Proof.
  induction s as [|c s IH]; simpl; [reflexivity|].
  destruct (p c); simpl; [exact IH | discriminate].
Qed.

Lemma drop_while_app (x y : str) :
  drop_while p (x ++ y) =
  match drop_while p x with
  | [] => drop_while p y
  | r => r ++ y
  end.
Proof.
  induction x as [|c x IH]; simpl; [reflexivity|].
  destruct (p c); [exact IH | reflexivity].
Qed.

Lemma drop_while_prefix_all (x y : str) :
  forallb p x = true -> drop_while p (x ++ y) = drop_while p y.
Proof.
  intros H. rewrite drop_while_app, (drop_while_all _ H). reflexivity.
Qed.

Lemma drop_while_suffix (s : str) : exists a, s = a ++ drop_while p s.
Proof. exists (take_while p s). symmetry. apply take_drop_while. Qed.

Lemma drop_while_length (s : str) :
  (List.length (drop_while p s) <= List.length s)%nat.
Proof.
  induction s as [|c s IH]; simpl; [lia|].
  destruct (p c); simpl; lia.
Qed.

End StringFacts.

Lemma eqb_eq (a b : str) : Str.eqb a b = true <-> a = b.
Proof.
  unfold Str.eqb. destruct (list_eq_dec N.eq_dec a b); split; congruence.
Qed.

Lemma eqb_neq (a b : str) : Str.eqb a b = false <-> a <> b.
Proof.
  unfold Str.eqb. destruct (list_eq_dec N.eq_dec a b); split; congruence.
Qed.

Lemma rstrip_nil_iff (s : str) : rstrip s = [] <-> forallb isspace s = true.
Proof.
  unfold rstrip. split; intros H.
  - assert (E : drop_while isspace (rev s) = []).
    { destruct (drop_while isspace (rev s)); [reflexivity|].
      apply (f_equal (@List.length N)) in H.
      rewrite length_rev in H. discriminate. }
    apply drop_while_nil_all in E. rewrite forallb_forall in *.
    intros x Hx. apply E. now apply in_rev in Hx.
  - rewrite drop_while_all; [reflexivity|].
    rewrite forallb_forall in *. intros x Hx. apply H. now apply in_rev.
Qed.

Lemma rstrip_app (a b : str) :
  rstrip (a ++ b) = match rstrip b with [] => rstrip a | r => a ++ r end.
Proof.
  unfold rstrip. rewrite rev_app_distr, drop_while_app.
  destruct (drop_while isspace (rev b)) as [|c r] eqn:E; [reflexivity|].
  rewrite rev_app_distr, rev_involutive.
  destruct (rev (c :: r)) eqn:E2; [|reflexivity].
  apply (f_equal (@List.length N)) in E2. rewrite length_rev in E2. discriminate.
Qed.

Lemma rstrip_cons (c : N) (s : str) :
  rstrip (c :: s) =
  match rstrip s with
  | [] => if isspace c then [] else [c]
  | r => c :: r
  end.
Proof.
  change (c :: s) with ([c] ++ s). rewrite rstrip_app.
  destruct (rstrip s); [|reflexivity].
  unfold rstrip. simpl. destruct (isspace c); reflexivity.
Qed.

Lemma rstrip_last (s : str) (c : N) :
  isspace c = false -> rstrip (s ++ [c]) = s ++ [c].
Proof.
  intros H. unfold rstrip. rewrite rev_app_distr. simpl. rewrite H.
  simpl. now rewrite rev_involutive.
Qed.

Lemma rstrip_idem (s : str) : rstrip (rstrip s) = rstrip s.
Proof.
  unfold rstrip. now rewrite rev_involutive, drop_while_idem.
Qed.

Lemma rstrip_prefix (s : str) : exists w, s = rstrip s ++ w /\ forallb isspace w = true.
Proof.
  unfold rstrip.
  exists (rev (take_while isspace (rev s))). split.
  - rewrite <- rev_app_distr, take_drop_while. symmetry. apply rev_involutive.
  - rewrite forallb_forall. intros x Hx. apply in_rev in Hx.
    pose proof (take_while_all isspace (rev s)) as H.
    rewrite forallb_forall in H. now apply H.
Qed.

Lemma rstrip_end (s r : str) (c : N) : rstrip s = r ++ [c] -> isspace c = false.
Proof.
  unfold rstrip. intros H.
  apply (f_equal (@rev N)) in H. rewrite rev_involutive, rev_app_distr in H.
  simpl in H. eapply drop_while_head; eassumption.
Qed.

Lemma rstrip_head (c : N) (s : str) :
  isspace c = false -> exists r, rstrip (c :: s) = c :: r.
Proof.
  intros H. rewrite rstrip_cons. destruct (rstrip s); rewrite ?H; eauto.
Qed.

Lemma lstrip_rstrip_lstrip (s : str) : lstrip (rstrip (lstrip s)) = rstrip (lstrip s).
Proof.
  unfold lstrip at 2 3.
  destruct (drop_while isspace s) as [|c r] eqn:E; [reflexivity|].
  pose proof (drop_while_head _ _ _ _ E) as Hc.
  destruct (rstrip_head c r Hc) as [r' ->].
  unfold lstrip. simpl. now rewrite Hc.
Qed.

Lemma strip_idem (s : str) : strip (strip s) = strip s.
Proof.
  unfold strip. rewrite lstrip_rstrip_lstrip. apply rstrip_idem.
Qed.

Lemma strip_no_outer_space (s : str) : no_outer_space (strip s).
Proof.
  split; intros c r H.
  - pose proof (lstrip_rstrip_lstrip s) as E. fold (strip s) in E.
    rewrite H in E. unfold lstrip in E. simpl in E.
    destruct (isspace c); [|reflexivity].
    pose proof (drop_while_length isspace r) as L.
    apply (f_equal (@List.length N)) in E. simpl in E. lia.
  - unfold strip in H. eapply rstrip_end; eassumption.
Qed.

Lemma strip_fixed (s : str) : no_outer_space s -> strip s = s.
Proof.
  intros [Hl Hr]. unfold strip, lstrip.
  assert (E : drop_while isspace s = s).
  { destruct s as [|c r]; [reflexivity|]. simpl. now rewrite (Hl c r eq_refl). }
  rewrite E.
  destruct s as [|c r _] using rev_ind; [reflexivity|].
  apply rstrip_last. now apply (Hr c r).
Qed.

(** *** Occurrences *)

Lemma starts_with_iff (p s : str) : starts_with p s = true <-> prefix_of p s.
Proof.
  unfold prefix_of. revert s.
  induction p as [|a p IH]; intros s; simpl.
  - split; [exists s; reflexivity | reflexivity].
  - destruct s as [|b s].
    + split; [discriminate | intros [r H]; discriminate].
    + rewrite andb_true_iff, N.eqb_eq, IH. split.
      * intros [-> [r ->]]. now exists r.
      * intros [r H]. injection H as -> ->. split; [reflexivity | now exists r].
Qed.

Lemma contains_iff (needle hay : str) :
  contains needle hay = true <-> substring needle hay.
Proof.
  unfold substring.
  induction hay as [|c hay IH].
  - cbn [contains]. rewrite orb_false_r, starts_with_iff. split.
    + intros [r H]. now exists [], r.
    + intros [a [b H]]. destruct a; [now exists b|discriminate].
  - cbn [contains]. rewrite orb_true_iff, starts_with_iff, IH. split.
    + intros [[r H] | [a [b H]]].
      * now exists [], r.
      * exists (c :: a), b. now rewrite H.
    + intros [[|d a] [b H]].
      * left. now exists b.
      * right. injection H as _ H. now exists a, b.
Qed.

Lemma substring_lstrip (c : N) (n hay : str) :
  isspace c = false -> substring (c :: n) hay -> substring (c :: n) (lstrip hay).
Proof.
  intros Hc [a [b ->]]. unfold lstrip. rewrite drop_while_app.
  destruct (drop_while isspace a) as [|d r].
  - simpl. rewrite Hc. now exists [], b.
  - now exists (d :: r), b.
Qed.

Lemma substring_rstrip (c : N) (n hay : str) :
  isspace c = false -> substring (n ++ [c]) hay -> substring (n ++ [c]) (rstrip hay).
Proof.
  intros Hc [a [b ->]].
  replace (a ++ (n ++ [c]) ++ b) with (((a ++ n) ++ [c]) ++ b)
    by now rewrite <- !app_assoc.
  rewrite rstrip_app. destruct (rstrip b) as [|d r].
  - rewrite rstrip_last by assumption. exists a, []. now rewrite app_nil_r, app_assoc.
  - exists a, (d :: r). now rewrite <- !app_assoc.
Qed.

Lemma substring_strip (c d : N) (n hay : str) :
  isspace c = false -> isspace d = false ->
  substring (c :: n ++ [d]) hay -> substring (c :: n ++ [d]) (strip hay).
Proof.
  intros Hc Hd H. unfold strip.
  change (c :: n ++ [d]) with ((c :: n) ++ [d]).
  apply substring_rstrip; [assumption|].
  now apply substring_lstrip.
Qed.

Lemma daily_card_marker_strip (s : str) :
  contains (lit "**Daily Card") s = true ->
  contains (lit "**Daily Card") (strip s) = true.
Proof.
  rewrite !contains_iff.
  apply (substring_strip 42 100 (lit "*Daily Car")); reflexivity.
Qed.

(** *** Lines *)

Lemma split_lines_line (l s : str) :
  no_newline l = true -> split_lines (l ++ nl :: s) = l :: split_lines s.
Proof.
  unfold no_newline, not_nl.
  induction l as [|c l IH]; simpl; intros H.
  - reflexivity.
  - apply andb_true_iff in H as [Hc Hl].
    apply negb_true_iff in Hc. rewrite Hc, (IH Hl). reflexivity.
Qed.

Lemma split_lines_last (l : str) : no_newline l = true -> split_lines l = [l].
Proof.
  unfold no_newline, not_nl.
  induction l as [|c l IH]; simpl; intros H.
  - reflexivity.
  - apply andb_true_iff in H as [Hc Hl].
    apply negb_true_iff in Hc. rewrite Hc, (IH Hl). reflexivity.
Qed.

Lemma split_lines_join (ls : list str) :
  ls <> [] -> forallb no_newline ls = true -> split_lines (join [nl] ls) = ls.
Proof.
  induction ls as [|l ls IH]; intros Hne H; [congruence|].
  simpl in H. apply andb_true_iff in H as [Hl Hls].
  destruct ls as [|l' ls].
  - simpl. now apply split_lines_last.
  - change (join [nl] (l :: l' :: ls)) with (l ++ nl :: join [nl] (l' :: ls)).
    rewrite split_lines_line by assumption.
    now rewrite IH.
Qed.

Lemma no_newline_app (a b : str) :
  no_newline (a ++ b) = no_newline a && no_newline b.
Proof. apply forallb_app. Qed.

(* ================================================================= *)
(** * Facts about the matcher *)

Section Repetition.

Variable p : N -> bool.

Lemma star_greedy_Some (s : str) : star_greedy p s Some = Some (drop_while p s).
Proof.
  induction s as [|c s IH]; simpl; [reflexivity|].
  destruct (p c); [now rewrite IH | reflexivity].
Qed.

(** When the continuation cannot start on a character of the set, a greedy
    run has one way to end: after the longest run. *)
Lemma star_greedy_det (s : str) (k : str -> option str) :
  (forall c s', p c = true -> k (c :: s') = None) ->
  star_greedy p s k = k (drop_while p s).
Proof.
  intros H. induction s as [|c s IH]; simpl; [reflexivity|].
  destruct (p c) eqn:E; [|reflexivity].
  rewrite IH, (H c s E). now destruct (k (drop_while p s)).
Qed.

Lemma star_greedy_zero (s : str) (k : str -> option str) :
  k s <> None -> star_greedy p s k <> None.
Proof.
  intros H. destruct s as [|c s]; simpl; [exact H|].
  destruct (p c); [|exact H].
  destruct (star_greedy p s k); [discriminate | exact H].
Qed.

Lemma star_lazy_zero (s : str) (k : str -> option str) :
  k s <> None -> star_lazy p s k <> None.
Proof.
  intros H. destruct s as [|c s]; simpl; destruct (k _); congruence.
Qed.

Lemma star_greedy_ext (s : str) (k k' : str -> option str) :
  (forall x, k x = k' x) -> star_greedy p s k = star_greedy p s k'.
Proof.
  intros H. induction s as [|c s IH]; simpl; [apply H|].
  now rewrite IH, H.
Qed.

Lemma star_lazy_ext (s : str) (k k' : str -> option str) :
  (forall x, k x = k' x) -> star_lazy p s k = star_lazy p s k'.
Proof.
  intros H. induction s as [|c s IH]; simpl; rewrite H; [reflexivity|].
  now rewrite IH.
Qed.

Lemma star_greedy_mono (ext : str) (k k' : str -> option str) :
  ext_ok ext k k' -> ext_ok ext (fun s => star_greedy p s k) (fun s => star_greedy p s k').
Proof.
  intros H s. induction s as [|c s IH]; simpl.
  - intros Hk. apply star_greedy_zero. now apply (H []).
  - destruct (p c).
    + destruct (star_greedy p s k) eqn:E.
      * intros _. destruct (star_greedy p (s ++ ext) k'); [discriminate|].
        exfalso. apply IH; [discriminate | reflexivity].
      * intros Hk. destruct (star_greedy p (s ++ ext) k'); [discriminate|].
        now apply (H (c :: s)).
    + intros Hk. now apply (H (c :: s)).
Qed.

Lemma star_lazy_mono (ext : str) (k k' : str -> option str) :
  ext_ok ext k k' -> ext_ok ext (fun s => star_lazy p s k) (fun s => star_lazy p s k').
Proof.
  intros H s. induction s as [|c s IH].
  - simpl. intros Hk. apply star_lazy_zero. apply (H []).
    destruct (k []); [discriminate | congruence].
  - intros Hk. cbn [star_lazy] in Hk.
    destruct (k (c :: s)) eqn:E.
    + apply star_lazy_zero. apply (H (c :: s)). congruence.
    + cbn [star_lazy app]. destruct (k' (c :: s ++ ext)); [discriminate|].
      destruct (p c); [now apply IH | congruence].
Qed.

End Repetition.

Lemma m_mono (ext : str) (r : regex) :
  forall (b : bool) (k k' : str -> option str),
    ext_ok ext k k' ->
    ext_ok ext (fun s => m r b s k) (fun s => m r b s k').
Proof.
  induction r as [|p| |r1 IH1 r2 IH2|r1 IH1 r2 IH2|p|p]; intros b k k' H s; cbn [m].
  - destruct b; [apply H | congruence].
  - destruct s as [|c s]; [congruence|]. cbn [app].
    destruct (p c); [apply H | congruence].
  - apply H.
  - apply IH1. intros s' Hs'.
    replace (List.length (s' ++ ext) =? List.length (s ++ ext))%nat
      with (List.length s' =? List.length s)%nat.
    + now apply (IH2 _ k k').
    + rewrite !length_app.
      destruct (Nat.eqb_spec (List.length s') (List.length s));
        symmetry; [apply Nat.eqb_eq | apply Nat.eqb_neq]; lia.
  - intros Hk.
    destruct (m r1 b s k) eqn:E.
    + assert (G : m r1 b (s ++ ext) k' <> None)
        by (apply (IH1 b k k' H s); congruence).
      destruct (m r1 b (s ++ ext) k'); congruence.
    + destruct (m r1 b (s ++ ext) k'); [discriminate|].
      now apply (IH2 b k k' H s).
  - now apply star_greedy_mono.
  - now apply star_lazy_mono.
Qed.

Lemma match_at_mono (r : regex) (b : bool) (s ext : str) :
  match_at r b s <> None -> match_at r b (s ++ ext) <> None.
Proof.
  unfold match_at. apply (m_mono ext r b Some Some). intros x _. discriminate.
Qed.

Lemma finds_head (r : regex) (b : bool) (s : str) :
  match_at r b s <> None -> finds r b s = true.
Proof.
  intros H. destruct s; cbn [finds]; destruct (match_at r b _); congruence.
Qed.

Lemma finds_mono (r : regex) (ext : str) :
  forall b s, finds r b s = true -> finds r b (s ++ ext) = true.
Proof.
  intros b s; revert b. induction s as [|c s IH]; intros b Hs.
  - apply finds_head. apply (match_at_mono r b [] ext).
    cbn [finds] in Hs. destruct (match_at r b []); congruence.
  - cbn [finds] in Hs. destruct (match_at r b (c :: s)) eqn:E.
    + apply finds_head. apply (match_at_mono r b (c :: s) ext). congruence.
    + cbn [app finds]. destruct (match_at r b (c :: s ++ ext)); [reflexivity | now apply IH].
Qed.

Lemma m_flag (r : regex) :
  anchor_free r = true ->
  forall (b b' : bool) (s : str) (k k' : str -> option str),
    (forall x, k x = k' x) -> m r b s k = m r b' s k'.
Proof.
  induction r as [|p| |r1 IH1 r2 IH2|r1 IH1 r2 IH2|p|p];
    cbn [anchor_free]; intros Ha b b' s k k' H; cbn [m].
  - discriminate.
  - destruct s as [|c s]; [reflexivity|]. now rewrite H.
  - apply H.
  - apply andb_true_iff in Ha as [H1 H2].
    apply IH1; [assumption|]. intros x. now apply IH2.
  - apply andb_true_iff in Ha as [H1 H2].
    now rewrite (IH1 H1 b b' s k k' H), (IH2 H2 b b' s k k' H).
  - now apply star_greedy_ext.
  - now apply star_lazy_ext.
Qed.

Lemma finds_flag (r : regex) (b b' : bool) (s : str) :
  anchor_free r = true -> finds r b s = finds r b' s.
Proof.
  intros Ha. destruct s as [|c s]; cbn [finds]; unfold match_at;
    now rewrite (m_flag r Ha b b' _ Some Some).
Qed.

Lemma finds_skip (r : regex) (pre s : str) (b : bool) :
  anchor_free r = true -> finds r b (pre ++ s) = false -> finds r b s = false.
Proof.
  intros Ha. revert b. induction pre as [|c pre IH]; intros b; [trivial|].
  cbn [app finds]. destruct (match_at r b _); [discriminate|].
  intros H. rewrite (finds_flag r b false s Ha). now apply IH.
Qed.

(** Where the pattern matches nowhere, [re.sub] returns its subject. *)
Lemma sub_loop_no_match (r : regex) :
  forall n b s, finds r b s = false -> sub_loop n r b s = s.
Proof.
  induction n as [|n IH]; intros b s H; [reflexivity|].
  destruct s as [|c s]; [reflexivity|].
  cbn [sub_loop]. cbn [finds] in H.
  destruct (match_at r b (c :: s)); [discriminate|].
  now rewrite IH.
Qed.

Lemma sub_del_no_match (r : regex) (s : str) :
  has_match r s = false -> sub_del r s = s.
Proof. apply sub_loop_no_match. Qed.

Lemma has_match_rstrip (r : regex) (s : str) :
  has_match r s = false -> has_match r (rstrip s) = false.
Proof.
  unfold has_match. intros H.
  destruct (finds r true (rstrip s)) eqn:E; [|reflexivity].
  destruct (rstrip_prefix s) as [w [Hs _]].
  apply (finds_mono r w) in E. rewrite <- Hs in E. congruence.
Qed.

Lemma has_match_lstrip (r : regex) (s : str) :
  anchor_free r = true -> has_match r s = false -> has_match r (lstrip s) = false.
Proof.
  unfold has_match, lstrip. intros Ha H.
  destruct (drop_while_suffix isspace s) as [a Hs].
  rewrite Hs in H. now apply finds_skip in H.
Qed.

(** The number of rounds given to [sub_loop] does not matter once it
    covers the subject. *)
Lemma sub_loop_fuel (r : regex) :
  forall n n' b s,
    (List.length s <= n)%nat -> (List.length s <= n')%nat ->
    sub_loop n r b s = sub_loop n' r b s.
Proof.
  induction n as [|n IH]; intros n' b s Hn Hn'.
  - destruct s; [|simpl in Hn; lia]. now destruct n'.
  - destruct s as [|c s]; [now destruct n'|].
    destruct n' as [|n']; [simpl in Hn'; lia|].
    cbn [sub_loop]. simpl in Hn, Hn'.
    destruct (match_at r b (c :: s)) as [rest|].
    + destruct (Nat.ltb_spec (List.length rest) (List.length (c :: s))) as [L|L].
      * simpl in L. apply IH; lia.
      * f_equal. apply IH; lia.
    + f_equal. apply IH; lia.
Qed.

(** *** Case-insensitive literals *)

Ltac bool_to_prop :=
  repeat (rewrite ?orb_true_iff, ?orb_false_iff, ?andb_true_iff, ?andb_false_iff,
            ?negb_true_iff, ?negb_false_iff, ?N.eqb_eq, ?N.eqb_neq,
            ?N.leb_le, ?N.leb_gt in *).

Lemma ci_printable (a c : N) :
  printable a = true -> ci a c = true -> not_nl c = true.
Proof.
  unfold printable, ci, lower_ascii, not_nl, nl. intros Ha H.
  destruct ((65 <=? a) && (a <=? 90)) eqn:Ea;
    destruct ((65 <=? c) && (c <=? 90)) eqn:Ec;
    bool_to_prop; lia.
Qed.

Lemma ci_visible (a c : N) :
  visible a = true -> ci a c = true -> isspace c = false.
Proof.
  unfold visible, ci, lower_ascii, isspace. intros Ha H.
  destruct ((65 <=? a) && (a <=? 90)) eqn:Ea;
    destruct ((65 <=? c) && (c <=? 90)) eqn:Ec;
    bool_to_prop; lia.
Qed.

Lemma ci_prefix_space (ws : list str) (c : N) (s : str) :
  isspace c = true ->
  forallb visible_head ws = true ->
  existsb (fun w => ci_prefix w (c :: s)) ws = false.
Proof.
  intros Hc. induction ws as [|w ws IH]; simpl; intros H; [reflexivity|].
  apply andb_true_iff in H as [Hw Hws]. rewrite (IH Hws), orb_false_r.
  destruct w as [|a w]; [discriminate|]. simpl in *.
  destruct (ci a c) eqn:E; [|reflexivity].
  rewrite (ci_visible a c Hw E) in Hc. discriminate.
Qed.

Lemma ci_prefix_line (w s : str) :
  forallb printable w = true -> ci_prefix w s = true ->
  drop_while not_nl (skipn (List.length w) s) = drop_while not_nl s.
Proof.
  revert s. induction w as [|a w IH]; intros s Hw H; [reflexivity|].
  destruct s as [|c s]; [discriminate|].
  simpl in Hw, H. apply andb_true_iff in Hw as [Ha Hw].
  apply andb_true_iff in H as [Hc H].
  cbn [List.length skipn drop_while].
  rewrite (ci_printable a c Ha Hc). now apply IH.
Qed.

(** *** The matcher on words and alternatives *)

Lemma m_ext (r : regex) :
  forall (b : bool) (s : str) (k k' : str -> option str),
    (forall x, k x = k' x) -> m r b s k = m r b s k'.
Proof.
  induction r as [|p| |r1 IH1 r2 IH2|r1 IH1 r2 IH2|p|p]; intros b s k k' H; cbn [m].
  - now rewrite H.
  - destruct s as [|c s]; [reflexivity|]. now rewrite H.
  - apply H.
  - apply IH1. intros x. now apply IH2.
  - now rewrite (IH1 b s k k' H), (IH2 b s k k' H).
  - now apply star_greedy_ext.
  - now apply star_lazy_ext.
Qed.

Lemma m_word (w : str) :
  forall (b : bool) (s : str) (k : str -> option str),
    m (word w) b s k = if ci_prefix w s then k (skipn (List.length w) s) else None.
Proof.
  induction w as [|a w IH]; intros b s k; cbn [word m ci_prefix]; [reflexivity|].
  destruct s as [|c s]; [reflexivity|].
  destruct (ci a c); [apply IH | reflexivity].
Qed.

Lemma m_alternatives (ws : list str) (b : bool) (s : str) (k : str -> option str) :
  m (alternatives (map word ws)) b s k = first_alt ws s k.
Proof.
  induction ws as [|w ws IH].
  - simpl. destruct s; reflexivity.
  - destruct ws as [|w' ws].
    + cbn [map alternatives first_alt]. rewrite m_word.
      now destruct (if ci_prefix w s then _ else _).
    + change (alternatives (map word (w :: w' :: ws)))
        with (Alt (word w) (alternatives (map word (w' :: ws)))).
      cbn [m first_alt]. rewrite m_word, IH. reflexivity.
Qed.

Lemma first_alt_line (ws : list str) (s : str) :
  forallb (forallb printable) ws = true ->
  first_alt ws s line_tail =
  if existsb (fun w => ci_prefix w s) ws then line_tail s else None.
Proof.
  induction ws as [|w ws IH]; intros H; [reflexivity|].
  simpl in H. apply andb_true_iff in H as [Hw Hws].
  cbn [first_alt existsb]. rewrite (IH Hws).
  destruct (ci_prefix w s) eqn:E; [|reflexivity].
  assert (L : line_tail (skipn (List.length w) s) = line_tail s)
    by (unfold line_tail; now rewrite ci_prefix_line).
  rewrite L. cbn [orb].
  destruct (line_tail s); [reflexivity|].
  now destruct (existsb _ ws).
Qed.

(** *** The opener pattern *)

Lemma m_line_tail (b : bool) (s : str) :
  m (Seq (Star not_nl) (Plus is_nl)) b s Some = line_tail s.
Proof.
  unfold Plus, line_tail. cbn [m].
  rewrite star_greedy_det.
  - destruct (drop_while not_nl s) as [|c r] eqn:E; [reflexivity|].
    apply drop_while_head in E.
    assert (Hc : is_nl c = true)
      by (unfold not_nl, is_nl in *; now apply negb_false_iff in E).
    cbn [drop_while]. rewrite Hc. apply star_greedy_Some.
  - intros c s' Hc.
    assert (Hn : is_nl c = false)
      by (unfold not_nl, is_nl in *; now apply negb_true_iff in Hc).
    now rewrite Hn.
Qed.

Lemma match_at_opener (t : str) : match_at opener_re true t = opener_match t.
Proof.
  unfold match_at, opener_re, opener_match. cbn [m].
  rewrite (star_greedy_ext isspace t _
             (fun s => if begins_with_opener s then line_tail s else None)).
  - rewrite star_greedy_det; [reflexivity|].
    intros c s' Hc. unfold begins_with_opener.
    now rewrite ci_prefix_space.
  - intros x.
    rewrite (m_ext _ _ x _ line_tail) by (intros; apply m_line_tail).
    rewrite m_alternatives. now apply first_alt_line.
Qed.

Lemma match_at_opener_inside (s : str) : match_at opener_re false s = None.
Proof. reflexivity. Qed.

Lemma finds_opener_inside (s : str) : finds opener_re false s = false.
Proof.
  induction s as [|c s IH]; cbn [finds]; now rewrite match_at_opener_inside.
Qed.

Lemma has_match_opener (t : str) :
  has_match opener_re t = match opener_match t with Some _ => true | None => false end.
Proof.
  unfold has_match. destruct t as [|c t]; cbn [finds];
    rewrite match_at_opener; destruct (opener_match _); try reflexivity.
  apply finds_opener_inside.
Qed.

Lemma opener_match_shorter (t rest : str) :
  opener_match t = Some rest -> (List.length rest < List.length t)%nat.
Proof.
  unfold opener_match. destruct (begins_with_opener _); [|discriminate].
  destruct (drop_while not_nl (drop_while isspace t)) as [|c r] eqn:E; [discriminate|].
  intros H. injection H as <-.
  pose proof (drop_while_length is_nl (c :: r)) as L1.
  pose proof (drop_while_length not_nl (drop_while isspace t)) as L2.
  pose proof (drop_while_length isspace t) as L3.
  pose proof (drop_while_head _ _ _ _ E) as Hc.
  assert (Hn : is_nl c = true)
    by (unfold not_nl, is_nl in *; now apply negb_false_iff in Hc).
  rewrite E in L2. cbn [drop_while] in *. rewrite Hn in *.
  pose proof (drop_while_length is_nl r) as L4. simpl in L2. lia.
Qed.

Lemma strip_opener_line_match (t : str) :
  strip_opener_line t = match opener_match t with Some rest => rest | None => t end.
Proof.
  unfold strip_opener_line, opener_match.
  destruct (begins_with_opener _); [|reflexivity].
  now destruct (drop_while not_nl _).
Qed.

(** [re.sub] with the opener pattern removes the opener line and nothing
    else: the anchor rules out every later position. *)
Lemma sub_del_opener (t : str) : sub_del opener_re t = strip_opener_line t.
Proof.
  rewrite strip_opener_line_match. unfold sub_del.
  destruct t as [|c t]; [reflexivity|].
  cbn [List.length sub_loop]. rewrite match_at_opener.
  destruct (opener_match (c :: t)) as [rest|] eqn:E.
  - apply opener_match_shorter in E. cbn [List.length] in E.
    apply Nat.ltb_lt in E. rewrite E.
    apply sub_loop_no_match, finds_opener_inside.
  - f_equal. apply sub_loop_no_match, finds_opener_inside.
Qed.

(* ================================================================= *)
(** * The prompt builder *)

Lemma is_daily_iff (req : SpreadRequest) :
  is_daily req = true <->
  spread_type req = lit "daily" \/ List.length (cards req) = 1%nat.
Proof.
  unfold is_daily. cbv zeta.
  rewrite orb_true_iff. rewrite (eqb_eq (spread_type req) (lit "daily")).
  rewrite Nat.eqb_eq. reflexivity.
Qed.

Lemma daily_template_shape (c : TarotCardInput) :
  daily_template c =
  nl :: daily_intro ++ name c ++ lit " (" ++ orientation c
     ++ daily_outro ++ nl :: meaning c ++ [nl].
Proof.
  unfold daily_template. cbn [join]. rewrite <- !app_assoc. reflexivity.
Qed.

Lemma rstrip_app_keep (a b : str) : rstrip b <> [] -> rstrip (a ++ b) = a ++ rstrip b.
Proof. intros H. rewrite rstrip_app. now destruct (rstrip b). Qed.

Lemma lstrip_head (c : N) (s : str) : isspace c = false -> lstrip (c :: s) = c :: s.
Proof. intros H. unfold lstrip. simpl. now rewrite H. Qed.

Lemma app_cons_not_nil (a : str) (c : N) (b : str) : a ++ c :: b <> [].
Proof. destruct a; discriminate. Qed.

Lemma lstrip_app_head (a b : str) :
  match a with c :: _ => isspace c | [] => true end = false ->
  lstrip (a ++ b) = a ++ b.
Proof.
  destruct a as [|c a]; [discriminate|]. intros H. now apply lstrip_head.
Qed.

Lemma rstrip_app_last (a : str) :
  match rev a with c :: _ => isspace c | [] => true end = false ->
  rstrip a = a.
Proof.
  unfold rstrip. destruct (rev a) as [|c r] eqn:E; [discriminate|].
  intros H. cbn [drop_while]. rewrite H, <- E. apply rev_involutive.
Qed.

Lemma rstrip_app_keep_nonempty (a b : str) :
  rstrip b <> [] -> rstrip (a ++ b) <> [].
Proof.
  intros H. rewrite rstrip_app_keep by exact H.
  destruct (rstrip b) as [|x r]; [congruence | apply app_cons_not_nil].
Qed.

(** Stripping a text of the shape of the daily template: [intro] begins
    and [outro] ends with a character that is not whitespace. *)
Lemma strip_template (intro nm mid orient outro mean : str) :
  match intro with c :: _ => isspace c | [] => true end = false ->
  match rev outro with c :: _ => isspace c | [] => true end = false ->
  strip (nl :: intro ++ nm ++ mid ++ orient ++ outro ++ nl :: mean ++ [nl]) =
  intro ++ nm ++ mid ++ orient ++ outro
    ++ match rstrip mean with [] => [] | r => nl :: r end.
Proof.
  intros Hi Ho. unfold strip.
  assert (L : lstrip (nl :: intro ++ nm ++ mid ++ orient ++ outro ++ nl :: mean ++ [nl])
              = intro ++ nm ++ mid ++ orient ++ outro ++ nl :: mean ++ [nl])
    by (apply (lstrip_app_head intro); exact Hi).
  rewrite L.
  assert (M : rstrip (nl :: mean ++ [nl]) = match rstrip mean with [] => [] | r => nl :: r end).
  { rewrite rstrip_cons, (rstrip_app mean [nl]).
    change (rstrip [nl]) with (@nil N). now destruct (rstrip mean). }
  assert (T : rstrip (outro ++ nl :: mean ++ [nl])
              = outro ++ match rstrip mean with [] => [] | r => nl :: r end).
  { rewrite (rstrip_app outro), M.
    destruct (rstrip mean); [|reflexivity].
    rewrite app_nil_r. now apply rstrip_app_last. }
  assert (N0 : rstrip (outro ++ nl :: mean ++ [nl]) <> []).
  { rewrite T. destruct outro as [|x o]; [discriminate|discriminate]. }
  pose proof (rstrip_app_keep_nonempty orient _ N0) as N1.
  pose proof (rstrip_app_keep_nonempty mid _ N1) as N2.
  pose proof (rstrip_app_keep_nonempty nm _ N2) as N3.
  rewrite (rstrip_app_keep intro _ N3).
  rewrite (rstrip_app_keep nm _ N2).
  rewrite (rstrip_app_keep mid _ N1).
  rewrite (rstrip_app_keep orient _ N0).
  now rewrite T.
Qed.

Lemma daily_intro_head :
  match daily_intro with c :: _ => isspace c | [] => true end = false.
Proof. vm_compute. reflexivity. Qed.

Lemma daily_outro_last :
  match rev daily_outro with c :: _ => isspace c | [] => true end = false.
Proof. vm_compute. reflexivity. Qed.

(** The daily prompt after [.strip()]: the leading newline of the template
    goes, and so does everything after the last non-blank character. *)
Lemma daily_prompt_shape (c : TarotCardInput) :
  strip (daily_template c) =
  daily_intro ++ name c ++ lit " (" ++ orientation c ++ daily_outro ++ meaning_tail c.
Proof.
  etransitivity; [apply (f_equal strip), daily_template_shape|].
  exact (strip_template daily_intro (name c) (lit " (") (orientation c)
           daily_outro (meaning c) daily_intro_head daily_outro_last).
Qed.

Lemma Ok_inj {A : Type} (a b : A) : Ok a = Ok b -> a = b.
Proof. intros H. now injection H. Qed.

Lemma build_prompt_eq (req : SpreadRequest) :
  build_prompt req =
  if is_daily req then
    match cards req with
    | [] => Raise IndexError
    | c :: _ => Ok (strip (daily_template c))
    end
  else Ok (join [nl] (multi_preamble ++ map card_line (cards req))).
Proof. reflexivity. Qed.

Lemma join_cons2 (sep l l' : str) (ls : list str) :
  join sep (l :: l' :: ls) = l ++ sep ++ join sep (l' :: ls).
Proof. reflexivity. Qed.

Lemma multi_prompt_opening (ls : list str) :
  firstn 25 (join [nl] (multi_preamble ++ ls)) = lit "You are a tarot reader. I".
Proof.
  unfold multi_preamble. cbn [app]. rewrite join_cons2, firstn_app.
  match goal with |- firstn 25 ?a ++ firstn ?n ?b = _ =>
    replace n with 0%nat by (vm_compute; reflexivity);
    replace (firstn 25 a) with (lit "You are a tarot reader. I")
      by (vm_compute; reflexivity)
  end.
  now rewrite firstn_O, app_nil_r.
Qed.

Lemma daily_prompt_opening (c : TarotCardInput) :
  firstn 25 (strip (daily_template c)) = lit "You are a tarot reader. W".
Proof.
  rewrite daily_prompt_shape, firstn_app.
  match goal with |- firstn 25 ?a ++ firstn ?n ?b = _ =>
    replace n with 0%nat by (vm_compute; reflexivity);
    replace (firstn 25 a) with (lit "You are a tarot reader. W")
      by (vm_compute; reflexivity)
  end.
  now rewrite firstn_O, app_nil_r.
Qed.

Lemma prompts_differ (c : TarotCardInput) (ls : list str) :
  strip (daily_template c) <> join [nl] (multi_preamble ++ ls).
Proof.
  intros H. apply (f_equal (firstn 25)) in H.
  rewrite daily_prompt_opening, multi_prompt_opening in H.
  vm_compute in H. discriminate.
Qed.

(* ================================================================= *)
(** * The normalizer *)

Lemma normalize_output_eq (req : SpreadRequest) (t : str) :
  normalize_output req t =
  if is_daily req then
    if negb (contains (lit "**Daily Card") (cleaned_daily t)) then
      match cards req with
      | [] => Raise IndexError
      | c :: _ => Ok (strip (strip (daily_header c ++ [nl] ++ cleaned_daily t)))
      end
    else Ok (strip (cleaned_daily t))
  else Ok (strip (strip (sub_del opener_re t))).
Proof. reflexivity. Qed.

Lemma cleaned_daily_stripped (t : str) : strip (cleaned_daily t) = cleaned_daily t.
Proof. apply strip_idem. Qed.

Lemma strip_rstrip (x : str) : strip x = x -> rstrip x = x.
Proof.
  intros H. rewrite <- H at 1. unfold strip. rewrite rstrip_idem. exact H.
Qed.

(** A header that neither begins nor ends with whitespace, put in front of
    a stripped text. *)
Lemma strip_header_text (h x : str) :
  match h with c :: _ => isspace c | [] => true end = false ->
  match rev h with c :: _ => isspace c | [] => true end = false ->
  strip x = x ->
  strip (h ++ [nl] ++ x) = h ++ match x with [] => [] | _ => nl :: x end.
Proof.
  intros Hh Hl Hx. unfold strip.
  rewrite (lstrip_app_head h _ Hh), (rstrip_app h).
  cbn [app]. rewrite rstrip_cons, (strip_rstrip x Hx).
  destruct x as [|d x]; [|reflexivity].
  change (isspace nl) with true. cbv iota.
  rewrite app_nil_r. now apply rstrip_app_last.
Qed.

Lemma daily_header_head (c : TarotCardInput) :
  match daily_header c with d :: _ => isspace d | [] => true end = false.
Proof. reflexivity. Qed.

Lemma daily_header_last (c : TarotCardInput) :
  match rev (daily_header c) with d :: _ => isspace d | [] => true end = false.
Proof.
  unfold daily_header. rewrite !rev_app_distr. reflexivity.
Qed.

Lemma strip_under_header (c : TarotCardInput) (x : str) :
  strip x = x -> strip (daily_header c ++ [nl] ++ x) = under_header c x.
Proof.
  intros Hx. apply strip_header_text;
    [apply daily_header_head | apply daily_header_last | exact Hx].
Qed.

Lemma normalize_daily (req : SpreadRequest) (c : TarotCardInput)
    (cs : list TarotCardInput) (t : str) :
  cards req = c :: cs -> is_daily req = true ->
  normalize_output req t =
  Ok (if contains (lit "**Daily Card") (cleaned_daily t)
      then cleaned_daily t
      else under_header c (cleaned_daily t)).
Proof.
  intros Hc Hd. rewrite normalize_output_eq, Hd, Hc.
  destruct (contains _ (cleaned_daily t)); cbn [negb].
  - now rewrite cleaned_daily_stripped.
  - rewrite strip_idem, strip_under_header by apply cleaned_daily_stripped.
    reflexivity.
Qed.

Lemma normalize_multi (req : SpreadRequest) (t : str) :
  is_daily req = false ->
  normalize_output req t = Ok (strip (strip_opener_line t)).
Proof.
  intros Hd. now rewrite normalize_output_eq, Hd, strip_idem, sub_del_opener.
Qed.

(** *** Texts without opener and without headings *)

Lemma opener_match_lstrip (t : str) : opener_match (lstrip t) = opener_match t.
Proof.
  unfold opener_match, lstrip. now rewrite drop_while_idem.
Qed.

Lemma has_match_opener_strip (t : str) :
  has_match opener_re t = false -> has_match opener_re (strip t) = false.
Proof.
  intros H. unfold strip. apply has_match_rstrip.
  now rewrite has_match_opener, opener_match_lstrip, <- has_match_opener.
Qed.

Lemma heading_re_anchor_free : anchor_free heading_re = true.
Proof. reflexivity. Qed.

Lemma has_match_heading_strip (t : str) :
  has_match heading_re t = false -> has_match heading_re (strip t) = false.
Proof.
  intros H. unfold strip. apply has_match_rstrip.
  apply has_match_lstrip; [apply heading_re_anchor_free | exact H].
Qed.

(** A text in which neither pattern matches only gets stripped. *)
Lemma cleaned_daily_plain (t : str) :
  has_match opener_re t = false -> has_match heading_re t = false ->
  cleaned_daily t = strip t.
Proof.
  intros Ho Hh. unfold cleaned_daily.
  rewrite (sub_del_no_match opener_re t Ho).
  rewrite (sub_del_no_match heading_re (strip t) (has_match_heading_strip t Hh)).
  apply strip_idem.
Qed.

(** A text that does not begin with an opener is one the opener pattern
    does not match. *)
Lemma no_opener_prefix_no_match (t : str) :
  begins_with_opener (lstrip t) = false -> has_match opener_re t = false.
Proof.
  intros H. rewrite has_match_opener. unfold opener_match.
  unfold lstrip in H. now rewrite H.
Qed.

Lemma strip_opener_line_plain (t : str) :
  has_match opener_re t = false -> strip_opener_line t = t.
Proof.
  intros H. rewrite <- sub_del_opener. now apply sub_del_no_match.
Qed.

(* ================================================================= *)
(** * Lines of the multi-card prompt *)

Lemma starts_with_app (p x : str) : starts_with p (p ++ x) = true.
Proof.
  induction p as [|a p IH]; [reflexivity|].
  cbn [app starts_with]. now rewrite N.eqb_refl, IH.
Qed.

Lemma position_line_card_line (c : TarotCardInput) : position_line (card_line c) = true.
Proof. apply starts_with_app. Qed.

Lemma filter_card_lines (cs : list TarotCardInput) :
  filter position_line (map card_line cs) = map card_line cs.
Proof.
  induction cs as [|c cs IH]; [reflexivity|].
  cbn [map filter]. now rewrite position_line_card_line, IH.
Qed.

Lemma preamble_no_position_line : filter position_line multi_preamble = [].
Proof. vm_compute. reflexivity. Qed.

Lemma preamble_one_line_each : forallb no_newline multi_preamble = true.
Proof. vm_compute. reflexivity. Qed.

Lemma orientation_no_newline (c : TarotCardInput) : no_newline (orientation c) = true.
Proof. unfold orientation. now destruct (is_reversed c). Qed.

Lemma card_line_no_newline (c : TarotCardInput) :
  one_line_card c = true -> no_newline (card_line c) = true.
Proof.
  unfold one_line_card, card_line. intros H.
  apply andb_true_iff in H as [H Hm]. apply andb_true_iff in H as [Hp Hn].
  rewrite !no_newline_app, Hp, Hn, Hm, orientation_no_newline. reflexivity.
Qed.

Lemma card_lines_no_newline (cs : list TarotCardInput) :
  forallb one_line_card cs = true -> forallb no_newline (map card_line cs) = true.
Proof.
  induction cs as [|c cs IH]; [reflexivity|].
  cbn [forallb map]. intros H. apply andb_true_iff in H as [Hc Hcs].
  now rewrite card_line_no_newline, IH.
Qed.

Lemma multi_prompt_lines (cs : list TarotCardInput) :
  forallb one_line_card cs = true ->
  split_lines (join [nl] (multi_preamble ++ map card_line cs))
  = multi_preamble ++ map card_line cs.
Proof.
  intros H. apply split_lines_join.
  - unfold multi_preamble. discriminate.
  - now rewrite forallb_app, preamble_one_line_each, card_lines_no_newline.
Qed.

(* ================================================================= *)
(** * The route *)

Lemma build_prompt_ok (req : SpreadRequest) (c : TarotCardInput)
    (cs : list TarotCardInput) :
  cards req = c :: cs -> exists prompt, build_prompt req = Ok prompt.
Proof.
  intros H. rewrite build_prompt_eq, H. destruct (is_daily req); eauto.
Qed.

Lemma interpret_spread_empty (client : create_args -> outcome)
    (req : SpreadRequest) (tr : list event) :
  cards req = [] ->
  interpret_spread client req tr =
  (tr, Raise (HTTPException 400 (lit "No cards provided"))).
Proof. intros H. unfold interpret_spread. now rewrite H. Qed.

Lemma interpret_spread_raised (client : create_args -> outcome)
    (req : SpreadRequest) (c : TarotCardInput) (cs : list TarotCardInput)
    (prompt message : str) (tr : list event) :
  cards req = c :: cs -> build_prompt req = Ok prompt ->
  client (request_args prompt) = Raised message ->
  interpret_spread client req tr =
  ((tr ++ [EvBuildPrompt]) ++ [EvResponsesCreate (request_args prompt)],
   Raise (HTTPException 500 (lit "OpenAI request failed: " ++ message))).
Proof.
  intros Hc Hp Hr.
  unfold interpret_spread, bind, emit, lift, responses_create, raise.
  rewrite Hc, Hp. fold (request_args prompt). rewrite Hr. reflexivity.
Qed.

Lemma interpret_spread_returned (client : create_args -> outcome)
    (req : SpreadRequest) (c : TarotCardInput) (cs : list TarotCardInput)
    (prompt : str) (answer : completion) (tr : list event) :
  cards req = c :: cs -> build_prompt req = Ok prompt ->
  client (request_args prompt) = Returned answer ->
  interpret_spread client req tr =
  ((tr ++ [EvBuildPrompt]) ++ [EvResponsesCreate (request_args prompt)],
   match normalize_output req
           (if is_empty (strip (List.concat (text_parts answer)))
            then fallback
            else strip (List.concat (text_parts answer))) with
   | Ok text => Ok {| interpretation := text |}
   | Raise e => Raise e
   end).
Proof.
  intros Hc Hp Hr.
  unfold interpret_spread, bind, emit, lift, responses_create, ret.
  rewrite Hc, Hp. fold (request_args prompt). rewrite Hr.
  unfold bind, emit, ret.
  destruct (normalize_output req _); reflexivity.
Qed.

Lemma fallback_plain : strip (strip_opener_line fallback) = fallback.
Proof. vm_compute. reflexivity. Qed.

Lemma fallback_cleaned : cleaned_daily fallback = fallback.
Proof. vm_compute. reflexivity. Qed.

Lemma fallback_no_marker : contains (lit "**Daily Card") fallback = false.
Proof. vm_compute. reflexivity. Qed.

(* ================================================================= *)
(** * Further facts about the prompt builder *)

Lemma is_daily_no_cards (req : SpreadRequest) :
  cards req = [] -> is_daily req = Str.eqb (spread_type req) (lit "daily").
Proof. intros H. unfold is_daily. rewrite H. apply orb_false_r. Qed.

Lemma is_daily_single (st : str) (c : TarotCardInput) :
  is_daily {| spread_type := st; cards := [c] |} = true.
Proof. unfold is_daily. cbn [cards List.length Nat.eqb]. apply orb_true_r. Qed.

Lemma prompt_fields_eq (c1 c2 : TarotCardInput) :
  prompt_fields c1 = prompt_fields c2 ->
  name c1 = name c2 /\ position c1 = position c2
  /\ orientation c1 = orientation c2 /\ meaning c1 = meaning c2.
Proof.
  unfold prompt_fields, orientation. intros H. injection H as Hn Hp Hr Hm.
  now rewrite Hr.
Qed.

Lemma card_line_fields (c1 c2 : TarotCardInput) :
  prompt_fields c1 = prompt_fields c2 -> card_line c1 = card_line c2.
Proof.
  intros H. destruct (prompt_fields_eq c1 c2 H) as [Hn [Hp [Ho Hm]]].
  unfold card_line. now rewrite Hn, Hp, Ho, Hm.
Qed.

Lemma daily_template_fields (c1 c2 : TarotCardInput) :
  prompt_fields c1 = prompt_fields c2 -> daily_template c1 = daily_template c2.
Proof.
  intros H. destruct (prompt_fields_eq c1 c2 H) as [Hn [_ [Ho Hm]]].
  rewrite (daily_template_shape c1), (daily_template_shape c2).
  generalize daily_intro, daily_outro. intros a b.
  now rewrite Hn, Ho, Hm.
Qed.

Lemma cons_eq_inv {A : Type} (a b : A) (l l' : list A) :
  a :: l = b :: l' -> a = b /\ l = l'.
Proof. intros H. split; congruence. Qed.

Lemma card_lines_fields (cs1 cs2 : list TarotCardInput) :
  map prompt_fields cs1 = map prompt_fields cs2 ->
  map card_line cs1 = map card_line cs2.
Proof.
  revert cs2. induction cs1 as [|c1 cs1 IH]; intros [|c2 cs2] H;
    try discriminate; [reflexivity|].
  cbn [map] in *. apply cons_eq_inv in H as [Hc Hcs].
  now rewrite (card_line_fields c1 c2 Hc), (IH cs2 Hcs).
Qed.

Lemma daily_intro_marker :
  exists a, daily_intro = a ++ lit "**Daily Card — ".
Proof.
  exists (firstn (List.length daily_intro - 15) daily_intro).
  vm_compute. reflexivity.
Qed.

Lemma daily_outro_parts :
  exists b, daily_outro = lit "):**" ++ [nl] ++ b
            /\ substring (lit "**Overall Message:**") b.
Proof.
  exists (skipn 5 daily_outro). split; [vm_compute; reflexivity|].
  apply contains_iff. vm_compute. reflexivity.
Qed.

(* ================================================================= *)
(** * Further facts about the normalizer *)

Lemma ci_refl (a : N) : ci a a = true.
Proof. unfold ci. now rewrite N.eqb_refl. Qed.

Lemma ci_prefix_self (w x : str) : ci_prefix w (w ++ x) = true.
Proof.
  induction w as [|a w IH]; [reflexivity|].
  cbn [app ci_prefix]. now rewrite ci_refl, IH.
Qed.

Lemma begins_with_opener_self (w x : str) :
  In w openers -> begins_with_opener (w ++ x) = true.
Proof.
  intros H. unfold begins_with_opener. apply existsb_exists.
  exists w. split; [exact H | apply ci_prefix_self].
Qed.

Lemma visible_not_space (a : N) : visible a = true -> isspace a = false.
Proof. unfold visible, isspace. intros H. bool_to_prop. lia. Qed.

Lemma printable_not_nl (a : N) : printable a = true -> not_nl a = true.
Proof. unfold printable, not_nl, nl. intros H. bool_to_prop. lia. Qed.

Lemma opener_shape (w : str) :
  In w openers ->
  match w with c :: _ => isspace c | [] => true end = false
  /\ forallb not_nl w = true.
Proof.
  intros H.
  assert (V : forallb visible_head openers = true) by reflexivity.
  assert (P : forallb (forallb printable) openers = true) by reflexivity.
  rewrite forallb_forall in V, P. specialize (V w H). specialize (P w H).
  split.
  - destruct w as [|a w]; [discriminate|]. now apply visible_not_space.
  - rewrite forallb_forall in *. intros a Ha. now apply printable_not_nl, P.
Qed.

Lemma drop_while_is_nl_stop (t : str) :
  (forall r, t <> nl :: r) -> drop_while is_nl t = t.
Proof.
  intros H. destruct t as [|c r]; [reflexivity|].
  cbn [drop_while]. unfold is_nl.
  destruct (N.eqb_spec c nl) as [->|_]; [now contradiction (H r) | reflexivity].
Qed.

(** An opener line at the head of a text: what [strip_opener_line] takes
    away is that line and its newline. *)
Lemma strip_opener_line_head (w tail t' : str) :
  In w openers -> no_newline tail = true -> (forall r, t' <> nl :: r) ->
  strip_opener_line (w ++ tail ++ [nl] ++ t') = t'.
Proof.
  intros Hw Ht Hn. destruct (opener_shape w Hw) as [Hh Hl].
  unfold strip_opener_line.
  fold (lstrip (w ++ tail ++ [nl] ++ t')).
  rewrite (lstrip_app_head w _ Hh), (begins_with_opener_self w _ Hw).
  rewrite (drop_while_prefix_all not_nl w _ Hl).
  rewrite (drop_while_prefix_all not_nl tail _ Ht).
  cbn [app drop_while]. change (not_nl nl) with false. cbv iota.
  change (is_nl nl) with true. cbv iota.
  now apply drop_while_is_nl_stop.
Qed.

(** *** The heading pattern *)

Lemma m_seq_free (r1 r2 : regex) (b : bool) (s : str) (k : str -> option str) :
  anchor_free r2 = true ->
  m (Seq r1 r2) b s k = m r1 b s (fun s' => m r2 false s' k).
Proof.
  intros Ha. cbn [m]. apply m_ext. intros x. now apply m_flag.
Qed.

Lemma ci_star (c : N) : ci 42 c = true -> c = 42.
Proof.
  unfold ci, lower_ascii. intros H.
  destruct ((65 <=? c) && (c <=? 90)) eqn:Ec; cbn in H; bool_to_prop; lia.
Qed.

Lemma heading_re_parts :
  heading_re = Seq (word (lit "**")) (Seq (Star isspace) heading_keyword).
Proof. reflexivity. Qed.

Lemma match_at_heading_star (b : bool) (s : str) :
  match_at heading_re b s <> None -> exists s', s = 42 :: s'.
Proof.
  unfold match_at. rewrite heading_re_parts. cbn [m]. rewrite m_word.
  destruct s as [|c s]; [intros H; now contradiction H|].
  cbn [ci_prefix lit]. destruct (ci 42 c) eqn:E.
  - apply ci_star in E. subst c. eauto.
  - intros H. change (ci_prefix (lit "**") (c :: s)) with (ci 42 c && ci_prefix [42] s) in H.
    rewrite E in H. now contradiction H.
Qed.

Lemma finds_heading_no_star (s : str) (b : bool) :
  no_star s = true -> finds heading_re b s = false.
Proof.
  revert b. induction s as [|c s IH]; intros b H; cbn [finds].
  - destruct (match_at heading_re b []) eqn:E; [|reflexivity].
    destruct (match_at_heading_star b []) as [s' Hs]; [congruence | discriminate].
  - cbn [no_star forallb] in H. apply andb_true_iff in H as [Hc Hs].
    destruct (match_at heading_re b (c :: s)) eqn:E; [|now apply IH].
    destruct (match_at_heading_star b (c :: s)) as [s' Hs']; [congruence|].
    apply cons_eq_inv in Hs' as [-> _]. discriminate.
Qed.

Lemma no_star_app (a b : str) : no_star (a ++ b) = no_star a && no_star b.
Proof. apply forallb_app. Qed.

Lemma no_star_lstrip (s : str) : no_star s = true -> no_star (lstrip s) = true.
Proof.
  intros H. rewrite <- (take_drop_while isspace s), no_star_app in H.
  now apply andb_true_iff in H as [_ H].
Qed.

Lemma no_star_rstrip (s : str) : no_star s = true -> no_star (rstrip s) = true.
Proof.
  intros H. destruct (rstrip_prefix s) as [w [E _]].
  rewrite E, no_star_app in H. now apply andb_true_iff in H as [H _].
Qed.

Lemma no_star_strip (s : str) : no_star s = true -> no_star (strip s) = true.
Proof. intros H. now apply no_star_rstrip, no_star_lstrip. Qed.

Lemma no_star_no_marker (s : str) :
  no_star s = true -> contains (lit "**Daily Card") s = false.
Proof.
  intros H. destruct (contains (lit "**Daily Card") s) eqn:E; [|reflexivity].
  apply contains_iff in E as [a [b ->]].
  rewrite !no_star_app in H. apply andb_true_iff in H as [_ H].
  apply andb_true_iff in H as [H _]. discriminate.
Qed.

Lemma ci_colon (c : N) : ci 58 c = (c =? 58).
Proof.
  unfold ci, lower_ascii.
  destruct ((65 <=? c) && (c <=? 90)) eqn:Ec; cbn;
    rewrite ?orb_false_r; [|reflexivity].
  destruct (N.eqb_spec (c + 32) 58), (N.eqb_spec c 58); bool_to_prop; try reflexivity; lia.
Qed.

Lemma ci_dash (c : N) : ci em_dash c = (c =? em_dash).
Proof.
  unfold ci, lower_ascii, em_dash.
  destruct ((65 <=? c) && (c <=? 90)) eqn:Ec; cbn;
    rewrite ?orb_false_r; [|reflexivity].
  destruct (N.eqb_spec (c + 32) 8212), (N.eqb_spec c 8212); bool_to_prop; try reflexivity; lia.
Qed.

Lemma skipn_exact (w x : str) : skipn (List.length w) (w ++ x) = x.
Proof. induction w as [|a w IH]; [reflexivity | exact IH]. Qed.

(** After the closing asterisks: an optional colon and the whitespace
    that follows are consumed. *)
Lemma m_heading_close (b : bool) (s : str) :
  m heading_close b (lit "**" ++ s) Some = Some (drop_while isspace (drop_colon s)).
Proof.
  unfold heading_close. rewrite m_seq_free by reflexivity.
  rewrite m_word, ci_prefix_self, skipn_exact.
  unfold Opt. cbn [m]. destruct s as [|c r].
  - reflexivity.
  - rewrite ci_colon. cbn [drop_colon].
    destruct (c =? 58); now rewrite !star_greedy_Some.
Qed.

Lemma m_heading_close_other (b : bool) (c : N) (s : str) :
  (c =? 42) = false -> m heading_close b (c :: s) Some = None.
Proof.
  intros H. unfold heading_close. rewrite m_seq_free by reflexivity.
  rewrite m_word.
  change (ci_prefix (lit "**") (c :: s)) with (ci 42 c && ci_prefix [42] s).
  destruct (ci 42 c) eqn:E; [|reflexivity].
  apply ci_star in E. subst c. discriminate.
Qed.

Lemma star_lazy_skip (p : N -> bool) (x s : str) (k : str -> option str)
    (v : str) :
  (forall c s', (c =? 42) = false -> k (c :: s') = None) ->
  no_star x = true -> forallb p x = true -> k s = Some v ->
  star_lazy p (x ++ s) k = Some v.
Proof.
  intros Hk. induction x as [|c x IH]; intros Hs Hp Hv.
  - cbn [app]. destruct s; cbn [star_lazy]; now rewrite Hv.
  - cbn [no_star forallb] in Hs, Hp.
    apply andb_true_iff in Hs as [Hc Hs]. apply andb_true_iff in Hp as [Hpc Hp].
    apply negb_true_iff in Hc.
    cbn [app star_lazy]. rewrite (Hk c _ Hc), Hpc. now apply IH.
Qed.

Lemma m_heading_title (b : bool) (x s : str) :
  no_star x = true -> no_newline x = true ->
  m heading_title b (x ++ lit "**" ++ s) Some
  = Some (drop_while isspace (drop_colon s)).
Proof.
  intros Hs Hn. unfold heading_title. rewrite m_seq_free by reflexivity.
  cbn [m]. apply star_lazy_skip; [|exact Hs|exact Hn|apply m_heading_close].
  intros c s' Hc. now apply m_heading_close_other.
Qed.

Lemma m_heading_dash (b : bool) (ws x s : str) :
  forallb isspace ws = true -> no_star x = true -> no_newline x = true ->
  m heading_dash b (ws ++ em_dash :: x ++ lit "**" ++ s) Some
  = Some (drop_while isspace (drop_colon s)).
Proof.
  intros Hw Hs Hn. unfold heading_dash. rewrite m_seq_free by reflexivity.
  cbn [m]. rewrite star_greedy_det.
  - rewrite (drop_while_prefix_all isspace ws _ Hw). cbn [drop_while].
    change (isspace em_dash) with false. cbv iota.
    rewrite ci_dash, N.eqb_refl. now apply m_heading_title.
  - intros c s' Hc. rewrite ci_dash.
    destruct (N.eqb_spec c em_dash) as [->|_]; [discriminate | reflexivity].
Qed.

Lemma first_alt_hit (w : str) (ws : list str) (s : str) (k : str -> option str)
    (v : str) :
  ci_prefix w s = true -> k (skipn (List.length w) s) = Some v ->
  first_alt (w :: ws) s k = Some v.
Proof. intros H1 H2. cbn [first_alt]. now rewrite H1, H2. Qed.

Lemma first_alt_miss (w : str) (ws : list str) (s : str) (k : str -> option str) :
  ci_prefix w s = false -> first_alt (w :: ws) s k = first_alt ws s k.
Proof. intros H. cbn [first_alt]. now rewrite H. Qed.

Lemma first_alt_none (ws : list str) (s : str) (k : str -> option str) :
  existsb (fun w => ci_prefix w s) ws = false -> first_alt ws s k = None.
Proof.
  induction ws as [|w ws IH]; [reflexivity|].
  cbn [existsb]. intros H. apply orb_false_iff in H as [H1 H2].
  now rewrite first_alt_miss, IH.
Qed.

Lemma first_alt_heading_word (kw rest : str) (k : str -> option str) (v : str) :
  In kw heading_words -> k rest = Some v ->
  first_alt heading_words (kw ++ rest) k = Some v.
Proof.
  intros H Hk. unfold heading_words in *.
  destruct H as [<- | [<- | [<- | []]]].
  - apply first_alt_hit; [apply ci_prefix_self | now rewrite skipn_exact].
  - rewrite first_alt_miss by reflexivity.
    apply first_alt_hit; [apply ci_prefix_self | now rewrite skipn_exact].
  - rewrite !first_alt_miss by reflexivity.
    apply first_alt_hit; [apply ci_prefix_self | now rewrite skipn_exact].
Qed.

Lemma heading_word_head (kw : str) :
  In kw heading_words ->
  match kw with c :: _ => isspace c | [] => true end = false.
Proof.
  unfold heading_words. intros [<- | [<- | [<- | []]]]; reflexivity.
Qed.

Lemma m_heading_keyword (b : bool) (kw ws x s : str) :
  In kw heading_words ->
  forallb isspace ws = true -> no_star x = true -> no_newline x = true ->
  m heading_keyword b (kw ++ ws ++ em_dash :: x ++ lit "**" ++ s) Some
  = Some (drop_while isspace (drop_colon s)).
Proof.
  intros Hk Hw Hs Hn. unfold heading_keyword. rewrite m_seq_free by reflexivity.
  rewrite m_alternatives.
  apply first_alt_heading_word; [exact Hk | now apply m_heading_dash].
Qed.

(** A heading at the head of the text: the match ends after the closing
    asterisks, the colon and the whitespace behind them. *)
Lemma match_at_heading (b : bool) (kw ws x s : str) :
  In kw heading_words ->
  forallb isspace ws = true -> no_star x = true -> no_newline x = true ->
  match_at heading_re b (lit "**" ++ kw ++ ws ++ em_dash :: x ++ lit "**" ++ s)
  = Some (drop_while isspace (drop_colon s)).
Proof.
  intros Hk Hw Hs Hn. unfold match_at. rewrite heading_re_parts.
  rewrite m_seq_free by reflexivity.
  rewrite m_word, ci_prefix_self, skipn_exact.
  rewrite m_seq_free by reflexivity.
  cbn [m]. rewrite star_greedy_det.
  - fold (lstrip (kw ++ ws ++ em_dash :: x ++ lit "**" ++ s)).
    rewrite (lstrip_app_head kw _ (heading_word_head kw Hk)).
    now apply m_heading_keyword.
  - intros c s' Hc. unfold heading_keyword. rewrite m_seq_free by reflexivity.
    rewrite m_alternatives. apply first_alt_none.
    now apply ci_prefix_space.
Qed.

Lemma sub_loop_flag (r : regex) (n : nat) (b b' : bool) (s : str) :
  anchor_free r = true -> sub_loop n r b s = sub_loop n r b' s.
Proof.
  intros Ha. destruct n as [|n]; [reflexivity|]. destruct s as [|c s]; [reflexivity|].
  cbn [sub_loop]. unfold match_at. now rewrite (m_flag r Ha b b' _ Some Some).
Qed.

(** [re.sub] after a match at the head of the text goes on with what the
    match left. *)
Lemma sub_del_front (r : regex) (t rest : str) :
  anchor_free r = true -> match_at r true t = Some rest ->
  (List.length rest < List.length t)%nat ->
  sub_del r t = sub_del r rest.
Proof.
  intros Ha Hm Hl. unfold sub_del.
  destruct t as [|c t]; [simpl in Hl; lia|].
  cbn [List.length sub_loop] in *. rewrite Hm.
  apply Nat.ltb_lt in Hl. rewrite Hl. apply Nat.ltb_lt in Hl.
  rewrite (sub_loop_flag r _ false true rest Ha).
  apply sub_loop_fuel; lia.
Qed.

Lemma drop_colon_length (s : str) :
  (List.length (drop_colon s) <= List.length s)%nat.
Proof.
  destruct s as [|c r]; [simpl; lia|]. cbn [drop_colon].
  destruct (c =? 58); simpl; lia.
Qed.

Lemma no_star_drop_colon (s : str) : no_star s = true -> no_star (drop_colon s) = true.
Proof.
  destruct s as [|c r]; [trivial|]. cbn [drop_colon].
  destruct (c =? 58); [|trivial].
  cbn [no_star forallb]. intros H. now apply andb_true_iff in H as [_ H].
Qed.

Lemma drop_colon_rstrip (s : str) : drop_colon (rstrip s) = rstrip (drop_colon s).
Proof.
  destruct s as [|c r]; [reflexivity|].
  rewrite rstrip_cons. cbn [drop_colon].
  destruct (N.eqb_spec c 58) as [->|Hc].
  - change (isspace 58) with false. cbv iota. now destruct (rstrip r).
  - rewrite rstrip_cons.
    destruct (rstrip r) as [|d r']; [destruct (isspace c)|]; cbn [drop_colon];
      try reflexivity; now apply N.eqb_neq in Hc; rewrite Hc.
Qed.

Lemma lstrip_rstrip_comm (s : str) : lstrip (rstrip s) = rstrip (lstrip s).
Proof.
  rewrite <- (take_drop_while isspace s) at 1. fold (lstrip s).
  rewrite rstrip_app.
  destruct (rstrip (lstrip s)) as [|d r] eqn:E.
  - assert (A : rstrip (take_while isspace s) = [])
      by (apply rstrip_nil_iff, take_while_all).
    now rewrite A.
  - unfold lstrip at 1.
    rewrite (drop_while_prefix_all isspace _ _ (take_while_all isspace s)).
    fold (lstrip (d :: r)). rewrite <- E. apply lstrip_rstrip_lstrip.
Qed.

Lemma rstrip_after_stars (body : str) :
  rstrip (lit "**" ++ body) = lit "**" ++ rstrip body.
Proof. rewrite rstrip_app. now destruct (rstrip body). Qed.

Lemma strip_heading_text (kw title body : str) :
  strip (lit "**" ++ kw ++ lit " — " ++ title ++ lit "**" ++ body)
  = lit "**" ++ kw ++ lit " — " ++ title ++ lit "**" ++ rstrip body.
Proof.
  unfold strip. rewrite (lstrip_app_head (lit "**")) by reflexivity.
  assert (N0 : rstrip (lit "**" ++ body) <> [])
    by (rewrite rstrip_after_stars; discriminate).
  pose proof (rstrip_app_keep_nonempty title _ N0) as N1.
  pose proof (rstrip_app_keep_nonempty (lit " — ") _ N1) as N2.
  pose proof (rstrip_app_keep_nonempty kw _ N2) as N3.
  rewrite (rstrip_app_keep (lit "**") _ N3).
  rewrite (rstrip_app_keep kw _ N2).
  rewrite (rstrip_app_keep (lit " — ") _ N1).
  rewrite (rstrip_app_keep title _ N0).
  now rewrite rstrip_after_stars.
Qed.

Lemma heading_text_no_opener (s : str) :
  has_match opener_re (lit "**" ++ s) = false.
Proof.
  apply no_opener_prefix_no_match.
  rewrite (lstrip_app_head (lit "**")) by reflexivity. reflexivity.
Qed.

(** The heading at the head of a text is taken away with the colon and
    the whitespace behind it; what follows is kept. *)
Lemma sub_del_heading_text (kw title body : str) :
  In kw heading_words -> no_star title = true -> no_newline title = true ->
  no_star body = true ->
  sub_del heading_re (lit "**" ++ kw ++ lit " — " ++ title ++ lit "**" ++ body)
  = lstrip (drop_colon body).
Proof.
  intros Hk Hs Hn Hb.
  assert (M : match_at heading_re true
                (lit "**" ++ kw ++ lit " — " ++ title ++ lit "**" ++ body)
              = Some (lstrip (drop_colon body))).
  { change (lit " — " ++ title ++ lit "**" ++ body)
      with ([32] ++ em_dash :: (32 :: title) ++ lit "**" ++ body).
    apply match_at_heading; [exact Hk | reflexivity | exact Hs | exact Hn]. }
  rewrite (sub_del_front heading_re _ _ heading_re_anchor_free M).
  - apply sub_del_no_match, finds_heading_no_star.
    now apply no_star_lstrip, no_star_drop_colon.
  - pose proof (drop_while_length isspace (drop_colon body)) as L1.
    pose proof (drop_colon_length body) as L2.
    unfold lstrip. rewrite !length_app. cbn [List.length lit]. simpl. lia.
Qed.

Lemma cleaned_daily_heading_text (kw title body : str) :
  In kw heading_words -> no_star title = true -> no_newline title = true ->
  no_star body = true ->
  cleaned_daily (lit "**" ++ kw ++ lit " — " ++ title ++ lit "**" ++ body)
  = strip (drop_colon body).
Proof.
  intros Hk Hs Hn Hb. unfold cleaned_daily.
  rewrite (sub_del_no_match opener_re _ (heading_text_no_opener _)).
  rewrite strip_heading_text.
  rewrite (sub_del_heading_text kw title (rstrip body) Hk Hs Hn (no_star_rstrip body Hb)).
  rewrite drop_colon_rstrip, lstrip_rstrip_comm.
  fold (strip (drop_colon body)). apply strip_idem.
Qed.

(* ================================================================= *)
(** * Further facts about the route *)

Lemma concat_part_texts (parts : list content_part) :
  List.concat (part_texts parts) = List.concat (map text_or_empty parts).
Proof.
  induction parts as [|part parts IH]; [reflexivity|].
  cbn [part_texts map List.concat]. unfold text_or_empty at 1.
  destruct (text part) as [[|c t]|]; cbn [List.concat app]; now rewrite IH.
Qed.

Lemma concat_item_texts (items : list output_item) :
  List.concat (item_texts items) = List.concat (map item_text items).
Proof.
  induction items as [|item items IH]; [reflexivity|].
  cbn [item_texts map List.concat]. rewrite concat_app, IH.
  apply (f_equal (fun x => x ++ List.concat (map item_text items))).
  unfold item_text. destruct (is_message item); [apply concat_part_texts | reflexivity].
Qed.

Lemma normalize_output_ok (req : SpreadRequest) (c : TarotCardInput)
    (cs : list TarotCardInput) (t : str) :
  cards req = c :: cs -> exists r, normalize_output req t = Ok r.
Proof.
  intros Hc. rewrite normalize_output_eq, Hc.
  destruct (is_daily req); [destruct (negb _)|]; eauto.
Qed.

(** The three ways the handler ends. *)
Lemma handler_cases (client : create_args -> outcome) (req : SpreadRequest) :
  (cards req = []
   /\ interpret_spread client req []
      = ([], Raise (HTTPException 400 (lit "No cards provided"))))
  \/ (exists c cs prompt,
        cards req = c :: cs /\ build_prompt req = Ok prompt
        /\ ((exists message,
               client (request_args prompt) = Raised message
               /\ interpret_spread client req []
                  = ([EvBuildPrompt; EvResponsesCreate (request_args prompt)],
                     Raise (HTTPException 500
                              (lit "OpenAI request failed: " ++ message))))
            \/ (exists answer r,
                  client (request_args prompt) = Returned answer
                  /\ normalize_output req (answer_text answer) = Ok r
                  /\ interpret_spread client req []
                     = ([EvBuildPrompt; EvResponsesCreate (request_args prompt)],
                        Ok {| interpretation := r |})))).
Proof.
  destruct (cards req) as [|c cs] eqn:Hc.
  - left. split; [reflexivity|].
    now rewrite (interpret_spread_empty client req [] Hc).
  - right. destruct (build_prompt_ok req c cs Hc) as [prompt Hp].
    exists c, cs, prompt. split; [reflexivity|]. split; [exact Hp|].
    destruct (client (request_args prompt)) as [answer|message] eqn:Hr.
    + right. destruct (normalize_output_ok req c cs (answer_text answer) Hc) as [r Hn].
      exists answer, r. split; [reflexivity|]. split; [exact Hn|].
      rewrite (interpret_spread_returned client req c cs prompt answer [] Hc Hp Hr).
      fold (answer_text answer). now rewrite Hn.
    + left. exists message. split; [reflexivity|].
      now rewrite (interpret_spread_raised client req c cs prompt message [] Hc Hp Hr).
Qed.

Lemma serve_eq (client : create_args -> outcome) (req : SpreadRequest) :
  serve client req
  = (fst (interpret_spread client req []),
     respond (snd (interpret_spread client req []))).
Proof. unfold serve. now destruct (interpret_spread client req []). Qed.

(** *** Strings that can be encoded *)

Lemma encodable_app (a b : str) : encodable (a ++ b) = encodable a && encodable b.
Proof. apply forallb_app. Qed.

Lemma orientation_encodable (c : TarotCardInput) : encodable (orientation c) = true.
Proof. unfold orientation. now destruct (is_reversed c). Qed.

Lemma daily_header_encodable (c : TarotCardInput) (x : str) :
  encodable x = true ->
  encodable (daily_header c ++ [nl] ++ x) = encodable (name c).
Proof.
  intros Hx. unfold daily_header.
  rewrite !encodable_app, orientation_encodable, Hx.
  change (encodable (lit "**Daily Card — ")) with true.
  change (encodable (lit " (")) with true.
  change (encodable (lit "):**")) with true.
  change (encodable [nl]) with true.
  cbn [andb]. now rewrite !andb_true_r.
Qed.

Lemma fallback_encodable : encodable fallback = true.
Proof. vm_compute. reflexivity. Qed.

Lemma answer_text_shape (answer : completion) :
  answer_text answer <> [] /\ strip (answer_text answer) = answer_text answer.
Proof.
  unfold answer_text.
  destruct (strip (List.concat (text_parts answer))) as [|c r] eqn:E; cbn [is_empty].
  - split; [discriminate | reflexivity].
  - split; [discriminate|]. rewrite <- E. apply strip_idem.
Qed.

Lemma strip_keeps_last (init : str) (d : N) :
  isspace d = false -> strip (init ++ [d]) <> [].
Proof.
  intros Hd H. unfold strip in H. apply rstrip_nil_iff in H.
  unfold lstrip in H. rewrite drop_while_app in H.
  destruct (drop_while isspace init) as [|e r].
  - cbn [drop_while] in H. rewrite Hd in H. cbn [forallb] in H.
    rewrite Hd in H. discriminate.
  - rewrite forallb_app in H. apply andb_true_iff in H as [_ H].
    cbn [forallb] in H. rewrite Hd in H. discriminate.
Qed.

Lemma forallb_last (p : N -> bool) (l init : str) (d : N) :
  forallb p l = true -> l = init ++ [d] -> p d = true.
Proof.
  intros H ->. rewrite forallb_app in H.
  apply andb_true_iff in H as [_ H]. cbn in H. now rewrite andb_true_r in H.
Qed.

Lemma Some_inj {A : Type} (a b : A) : Some a = Some b -> a = b.
Proof. intros H. congruence. Qed.

(** What the opener rule leaves of a trimmed, non-empty text is not
    blank. *)
Lemma strip_opener_line_not_blank (x : str) :
  x <> [] -> strip x = x -> strip (strip_opener_line x) <> [].
Proof.
  intros Hx Hs. rewrite strip_opener_line_match.
  destruct (opener_match x) as [rest|] eqn:E; [|now rewrite Hs].
  unfold opener_match in E.
  destruct (begins_with_opener _); [|discriminate].
  destruct (drop_while not_nl (drop_while isspace x)) as [|c r] eqn:El; [discriminate|].
  apply Some_inj in E.
  pose proof (drop_while_head _ _ _ _ El) as Hc.
  assert (Hn : is_nl c = true)
    by (unfold not_nl, is_nl in *; now apply negb_false_iff in Hc).
  pose proof (strip_no_outer_space x) as [_ Hlast]. rewrite Hs in Hlast.
  assert (D : exists pre, x = pre ++ c :: r).
  { destruct (drop_while_suffix isspace x) as [a Ha].
    destruct (drop_while_suffix not_nl (drop_while isspace x)) as [b Hb].
    exists (a ++ b). rewrite <- app_assoc, <- El, <- Hb. exact Ha. }
  destruct D as [pre D].
  assert (T : c :: r = take_while is_nl (c :: r) ++ rest)
    by (rewrite <- E; symmetry; apply take_drop_while).
  pose proof (take_while_all is_nl (c :: r)) as Hall.
  clear E El. revert T Hall. generalize (take_while is_nl (c :: r)) as nls.
  intros nls T Hall.
  destruct rest as [|e rest' _] using rev_ind.
  - exfalso. rewrite app_nil_r in T.
    destruct (exists_last (l := c :: r) ltac:(discriminate)) as [init [d Hd]].
    assert (Hnl : is_nl d = true).
    { apply (forallb_last is_nl (c :: r) init d); [|exact Hd].
      rewrite T. exact Hall. }
    assert (Hsp : isspace d = false).
    { apply (Hlast d (pre ++ init)). rewrite D, Hd. now rewrite app_assoc. }
    unfold is_nl in Hnl. apply N.eqb_eq in Hnl. subst d. discriminate.
  - apply strip_keeps_last.
    apply (Hlast e (pre ++ nls ++ rest')).
    rewrite D, T. now rewrite <- !app_assoc.
Qed.

Lemma normalize_output_not_empty (req : SpreadRequest) (c : TarotCardInput)
    (cs : list TarotCardInput) (x r : str) :
  cards req = c :: cs -> x <> [] -> strip x = x ->
  normalize_output req x = Ok r -> r <> [].
Proof.
  intros Hc Hx Hs. destruct (is_daily req) eqn:Hd.
  - rewrite (normalize_daily req c cs x Hc Hd).
    destruct (contains (lit "**Daily Card") (cleaned_daily x)) eqn:E;
      intros H; apply Ok_inj in H; subst r.
    + intros N0. rewrite N0 in E. discriminate.
    + unfold under_header, daily_header. discriminate.
  - rewrite (normalize_multi req x Hd). intros H. apply Ok_inj in H. subst r.
    now apply strip_opener_line_not_blank.
Qed.

(* ================================================================= *)
(** * Further facts about occurrences *)

Lemma substring_refl (s : str) : substring s s.
Proof. exists [], []. now rewrite app_nil_r. Qed.

Lemma substring_trans (a b c : str) : substring a b -> substring b c -> substring a c.
Proof.
  intros [x [y ->]] [u [v ->]]. exists (u ++ x), (y ++ v).
  now rewrite <- !app_assoc.
Qed.

Lemma substring_app_l (a x s : str) : substring a s -> substring a (x ++ s).
Proof. intros [u [v ->]]. exists (x ++ u), v. now rewrite <- app_assoc. Qed.

Lemma substring_app_r (a s y : str) : substring a s -> substring a (s ++ y).
Proof. intros [u [v ->]]. exists u, (v ++ y). now rewrite <- !app_assoc. Qed.

Lemma substring_join_in (sep l : str) (ls : list str) :
  In l ls -> substring l (join sep ls).
Proof.
  induction ls as [|l0 ls IH]; [intros []|].
  destruct ls as [|l1 ls].
  - intros [<- | []]. apply substring_refl.
  - rewrite join_cons2. intros [<- | H].
    + apply substring_app_r, substring_refl.
    + now apply substring_app_l, substring_app_l, IH.
Qed.

Lemma card_line_holds_fields (c : TarotCardInput) :
  substring (position c) (card_line c)
  /\ substring (name c) (card_line c)
  /\ substring (meaning c) (card_line c).
Proof.
  unfold card_line. repeat split.
  - apply substring_app_l, substring_app_r, substring_refl.
  - do 3 apply substring_app_l. apply substring_app_r, substring_refl.
  - do 7 apply substring_app_l. apply substring_refl.
Qed.

(* ================================================================= *)
(** * Lengths: nothing the normalizer does before the header adds text *)

Lemma rstrip_length (s : str) : (List.length (rstrip s) <= List.length s)%nat.
Proof.
  unfold rstrip. rewrite length_rev.
  pose proof (drop_while_length isspace (rev s)) as L.
  now rewrite length_rev in L.
Qed.

Lemma strip_length (s : str) : (List.length (strip s) <= List.length s)%nat.
Proof.
  unfold strip, lstrip.
  pose proof (rstrip_length (drop_while isspace s)).
  pose proof (drop_while_length isspace s). lia.
Qed.

Lemma sub_loop_length (r : regex) :
  forall n b s, (List.length (sub_loop n r b s) <= List.length s)%nat.
Proof.
  induction n as [|n IH]; intros b s; [simpl; lia|].
  destruct s as [|c s]; [simpl; lia|].
  cbn [sub_loop]. destruct (match_at r b (c :: s)) as [rest|].
  - destruct (Nat.ltb_spec (List.length rest) (List.length (c :: s))) as [L|L].
    + pose proof (IH false rest). lia.
    + pose proof (IH false s). simpl. lia.
  - pose proof (IH false s). simpl. lia.
Qed.

Lemma sub_del_length (r : regex) (s : str) :
  (List.length (sub_del r s) <= List.length s)%nat.
Proof. apply sub_loop_length. Qed.

(** Where the pattern matches somewhere and no match is empty, [re.sub]
    makes the text shorter. *)
Lemma sub_loop_shorter (r : regex) :
  (forall b s rest, match_at r b s = Some rest ->
                    (List.length rest < List.length s)%nat) ->
  forall n b s,
    (List.length s <= n)%nat -> finds r b s = true ->
    (List.length (sub_loop n r b s) < List.length s)%nat.
Proof.
  intros Hm. induction n as [|n IH]; intros b s Hn Hf.
  - destruct s as [|c s]; [|simpl in Hn; lia].
    cbn [finds] in Hf. destruct (match_at r b []) as [rest|] eqn:E; [|discriminate].
    apply Hm in E. simpl in E. lia.
  - destruct s as [|c s].
    + cbn [finds] in Hf. destruct (match_at r b []) as [rest|] eqn:E; [|discriminate].
      apply Hm in E. simpl in E. lia.
    + cbn [sub_loop]. cbn [finds] in Hf.
      destruct (match_at r b (c :: s)) as [rest|] eqn:E.
      * pose proof (Hm _ _ _ E) as L. apply Nat.ltb_lt in L. rewrite L.
        apply Nat.ltb_lt in L. pose proof (sub_loop_length r n false rest). lia.
      * simpl in Hn. pose proof (IH false s ltac:(lia) Hf). simpl. lia.
Qed.

Lemma star_greedy_never_longer (p : N -> bool) (k : str -> option str) :
  never_longer k -> never_longer (fun s => star_greedy p s k).
Proof.
  intros Hk s. induction s as [|c s IH]; intros v; cbn [star_greedy].
  - apply Hk.
  - destruct (p c); [|apply Hk].
    destruct (star_greedy p s k) as [x|] eqn:E.
    + intros H. apply Some_inj in H. subst x.
      pose proof (IH v eq_refl). simpl. lia.
    + apply Hk.
Qed.

Lemma star_lazy_never_longer (p : N -> bool) (k : str -> option str) :
  never_longer k -> never_longer (fun s => star_lazy p s k).
Proof.
  intros Hk s. induction s as [|c s IH]; intros v; cbn [star_lazy].
  - destruct (k []) eqn:E; [|discriminate].
    intros H. apply Some_inj in H. subst. now apply Hk.
  - destruct (k (c :: s)) eqn:E.
    + intros H. apply Some_inj in H. subst. now apply Hk.
    + destruct (p c); [|discriminate].
      intros H. pose proof (IH v H). simpl. lia.
Qed.

Lemma m_never_longer (r : regex) :
  forall b k, never_longer k -> never_longer (fun s => m r b s k).
Proof.
  induction r as [|p| |r1 IH1 r2 IH2|r1 IH1 r2 IH2|p|p]; intros b k Hk s v; cbn [m].
  - destruct b; [apply Hk | discriminate].
  - destruct s as [|c s]; [discriminate|].
    destruct (p c); [|discriminate].
    intros H. apply Hk in H. simpl. lia.
  - apply Hk.
  - apply (IH1 b (fun s' => m r2 (b && (List.length s' =? List.length s)%nat) s' k)).
    intros s' v'. now apply IH2.
  - destruct (m r1 b s k) as [x|] eqn:E.
    + intros H. apply Some_inj in H. subst x. now apply (IH1 b k Hk s).
    + now apply IH2.
  - now apply star_greedy_never_longer.
  - now apply star_lazy_never_longer.
Qed.

Lemma never_longer_Some : never_longer Some.
Proof. intros s v H. apply Some_inj in H. subst. lia. Qed.

(** A match of the heading pattern takes at least its two asterisks. *)
Lemma match_at_heading_shorter (b : bool) (s rest : str) :
  match_at heading_re b s = Some rest ->
  (List.length rest < List.length s)%nat.
Proof.
  unfold match_at. rewrite heading_re_parts, m_seq_free by reflexivity.
  rewrite m_word.
  destruct s as [|c1 [|c2 s]]; try discriminate.
  - change (ci_prefix (lit "**") [c1]) with (ci 42 c1 && false).
    rewrite andb_false_r. discriminate.
  - destruct (ci_prefix (lit "**") (c1 :: c2 :: s)); [|discriminate].
    change (skipn (List.length (lit "**")) (c1 :: c2 :: s)) with s.
    intros H. apply (m_never_longer _ false Some never_longer_Some) in H.
    simpl. lia.
Qed.

Lemma sub_del_heading_shorter (s : str) :
  has_match heading_re s = true ->
  (List.length (sub_del heading_re s) < List.length s)%nat.
Proof.
  intros H. apply sub_loop_shorter; [apply match_at_heading_shorter | lia | exact H].
Qed.

(** The marker at the head of a text is out of reach of the heading
    pattern. *)
Lemma sub_del_heading_marker (tl : str) :
  sub_del heading_re (lit "**Daily Card" ++ tl)
  = lit "**Daily Card" ++ sub_loop (List.length tl) heading_re false tl.
Proof. reflexivity. Qed.

Lemma cleaned_marker_head (tl : str) :
  has_match opener_re (lit "**Daily Card" ++ tl) = false ->
  strip (lit "**Daily Card" ++ tl) = lit "**Daily Card" ++ tl ->
  contains (lit "**Daily Card") (cleaned_daily (lit "**Daily Card" ++ tl)) = true.
Proof.
  intros Ho Hs. unfold cleaned_daily.
  rewrite (sub_del_no_match opener_re _ Ho), Hs, sub_del_heading_marker.
  apply daily_card_marker_strip, contains_iff.
  exists [], (sub_loop (List.length tl) heading_re false tl). reflexivity.
Qed.

Lemma under_header_marker (c : TarotCardInput) (x : str) :
  exists tl, under_header c x = lit "**Daily Card" ++ tl.
Proof.
  exists (lit " — " ++ name c ++ lit " (" ++ orientation c ++ lit "):**"
          ++ match x with [] => [] | _ => nl :: x end).
  unfold under_header, daily_header. rewrite <- !app_assoc. reflexivity.
Qed.

Lemma strip_fixed_lstrip (r : str) : strip r = r -> lstrip r = r.
Proof.
  intros H. rewrite <- H at 1. unfold strip.
  rewrite lstrip_rstrip_lstrip. exact H.
Qed.

Lemma opener_head_not_star (s : str) (tl : str) :
  begins_with_opener s = true -> s <> 42 :: tl.
Proof. intros H ->. discriminate. Qed.

(** *** When the daily branch returns its input *)

Lemma normalize_daily_result (req : SpreadRequest) (t r : str) :
  is_daily req = true -> normalize_output req t = Ok r ->
  strip r = r /\ contains (lit "**Daily Card") r = true.
Proof.
  intros Hd. rewrite normalize_output_eq, Hd.
  destruct (contains (lit "**Daily Card") (cleaned_daily t)) eqn:E; cbn [negb].
  - intros H. apply Ok_inj in H. subst r.
    rewrite cleaned_daily_stripped. split; [apply cleaned_daily_stripped | exact E].
  - destruct (cards req) as [|c cs]; [discriminate|].
    intros H. apply Ok_inj in H. subst r. split; [apply strip_idem|].
    rewrite strip_idem, (strip_under_header c _ (cleaned_daily_stripped t)).
    destruct (under_header_marker c (cleaned_daily t)) as [tl ->].
    apply contains_iff. exists [], tl. reflexivity.
Qed.

Lemma normalize_daily_fixed (req : SpreadRequest) (r : str) :
  is_daily req = true -> strip r = r ->
  contains (lit "**Daily Card") r = true ->
  has_match opener_re r = false -> has_match heading_re r = false ->
  normalize_output req r = Ok r.
Proof.
  intros Hd Hs Hc Ho Hh.
  rewrite normalize_output_eq, Hd, (cleaned_daily_plain r Ho Hh), Hs, Hc.
  cbn [negb]. now rewrite Hs.
Qed.

Lemma cleaned_daily_shorter (r : str) :
  strip r = r ->
  has_match opener_re r = true \/ has_match heading_re r = true ->
  (List.length (cleaned_daily r) < List.length r)%nat.
Proof.
  intros Hs H. unfold cleaned_daily.
  destruct (has_match opener_re r) eqn:Ho.
  - rewrite has_match_opener in Ho.
    destruct (opener_match r) as [rest|] eqn:E; [|discriminate].
    rewrite sub_del_opener, strip_opener_line_match, E.
    pose proof (opener_match_shorter r rest E).
    pose proof (strip_length (sub_del heading_re (strip rest))).
    pose proof (sub_del_length heading_re (strip rest)).
    pose proof (strip_length rest). lia.
  - destruct H as [H | H]; [discriminate|].
    rewrite (sub_del_no_match opener_re r Ho), Hs.
    pose proof (sub_del_heading_shorter r H).
    pose proof (strip_length (sub_del heading_re r)). lia.
Qed.

Lemma normalize_daily_moves (req : SpreadRequest) (r : str) :
  is_daily req = true -> strip r = r ->
  has_match opener_re r = true \/ has_match heading_re r = true ->
  normalize_output req r <> Ok r.
Proof.
  intros Hd Hs H.
  pose proof (cleaned_daily_shorter r Hs H) as L.
  rewrite normalize_output_eq, Hd.
  destruct (contains (lit "**Daily Card") (cleaned_daily r)) eqn:E; cbn [negb].
  - intros G. apply Ok_inj in G. rewrite cleaned_daily_stripped in G.
    rewrite G in L. lia.
  - destruct (cards req) as [|c cs]; [discriminate|].
    intros G. apply Ok_inj in G.
    rewrite strip_idem, (strip_under_header c _ (cleaned_daily_stripped r)) in G.
    destruct (under_header_marker c (cleaned_daily r)) as [tl Htl].
    rewrite Htl in G.
    destruct (has_match opener_re r) eqn:Ho.
    + rewrite has_match_opener in Ho. unfold opener_match in Ho.
      fold (lstrip r) in Ho. rewrite (strip_fixed_lstrip r Hs) in Ho.
      destruct (begins_with_opener r) eqn:B; [|discriminate].
      rewrite <- G in B. discriminate.
    + rewrite <- G in E, Ho, Hs.
      rewrite (cleaned_marker_head tl Ho Hs) in E. discriminate.
Qed.

(* ================================================================= *)
(** * Properties of the specification *)

(** C1.  For a request with at least one card, the request is daily
    exactly when [spread_type == "daily"] or there is exactly one card
    (so a single card with another spread type is daily too), and both
    [build_prompt] and [normalize_output] branch on this one
    classification: the prompt is the single-card prompt exactly when the
    request is daily and the multi-card prompt otherwise, and the
    normalizer takes its daily branch exactly then and only strips the
    opener otherwise. *)
Theorem C1_daily_classification (req : SpreadRequest) (c : TarotCardInput)
    (cs : list TarotCardInput) :
  cards req = c :: cs ->
  (is_daily req = true <->
     spread_type req = lit "daily" \/ List.length (cards req) = 1%nat)
  /\ (build_prompt req = Ok (strip (daily_template c)) <-> is_daily req = true)
  /\ (build_prompt req = Ok (join [nl] (multi_preamble ++ map card_line (cards req)))
        <-> is_daily req = false)
  /\ (forall t,
        normalize_output req t =
        if is_daily req then
          Ok (if contains (lit "**Daily Card") (cleaned_daily t)
              then cleaned_daily t
              else under_header c (cleaned_daily t))
        else Ok (strip (strip_opener_line t))).
Proof.
  intros Hc. split; [apply is_daily_iff|].
  rewrite build_prompt_eq, Hc.
  destruct (is_daily req) eqn:Hd; repeat split; try congruence.
  - intros H. apply Ok_inj in H. now apply prompts_differ in H.
  - intros t. now rewrite (normalize_daily req c cs t Hc Hd).
  - intros H. apply Ok_inj in H. symmetry in H. now apply prompts_differ in H.
  - intros t. now rewrite (normalize_multi req t Hd).
Qed.

Lemma C1_witness :
  cards single_card_three_card_type = [the_fool]
  /\ spread_type single_card_three_card_type <> lit "daily"
  /\ is_daily single_card_three_card_type = true
  /\ build_prompt single_card_three_card_type = Ok (strip (daily_template the_fool)).
Proof.
  pose proof (C1_daily_classification single_card_three_card_type the_fool []
                eq_refl) as [H1 [H2 _]].
  assert (D : is_daily single_card_three_card_type = true)
    by (apply H1; right; reflexivity).
  split; [reflexivity|]. split; [discriminate|].
  split; [exact D | now apply H2].
Defined.

(** C2 (as amended).  For a non-empty daily request the prompt contains
    "SINGLE CARD daily draw" and ends with the first card's
    orientation-correct meaning text without its trailing whitespace
    (the reversed meaning when the card is reversed, the upright one
    otherwise); the whole meaning text is contained whenever it does not
    end in whitespace. *)
Theorem C2_daily_prompt_contents (req : SpreadRequest) (c : TarotCardInput)
    (cs : list TarotCardInput) :
  cards req = c :: cs -> is_daily req = true ->
  exists prompt,
    build_prompt req = Ok prompt
    /\ substring (lit "SINGLE CARD daily draw") prompt
    /\ suffix_of (rstrip (meaning c)) prompt
    /\ (rstrip (meaning c) = meaning c -> substring (meaning c) prompt)
    /\ meaning c = (if is_reversed c then reversed_meaning c else upright_meaning c).
Proof.
  intros Hc Hd. exists (strip (daily_template c)).
  split; [now rewrite build_prompt_eq, Hd, Hc|].
  rewrite daily_prompt_shape.
  assert (I : substring (lit "SINGLE CARD daily draw") daily_intro)
    by (apply contains_iff; vm_compute; reflexivity).
  revert I. generalize daily_intro as intro, daily_outro as outro.
  generalize (lit "SINGLE CARD daily draw") as needle. intros needle intro outro I.
  assert (S : suffix_of (rstrip (meaning c))
                (intro ++ name c ++ lit " (" ++ orientation c
                   ++ outro ++ meaning_tail c)).
  { unfold suffix_of, meaning_tail. destruct (rstrip (meaning c)) as [|x r].
    - exists (intro ++ name c ++ lit " (" ++ orientation c ++ outro).
      now rewrite <- !app_assoc.
    - exists (intro ++ name c ++ lit " (" ++ orientation c ++ outro ++ [nl]).
      now rewrite <- !app_assoc. }
  split; [|split; [exact S|split; [|reflexivity]]].
  - destruct I as [a [b ->]]. exists a. eexists.
    rewrite <- !app_assoc. reflexivity.
  - intros E. rewrite E in S. destruct S as [a ->]. exists a, [].
    now rewrite app_nil_r.
Qed.

Lemma C2_witness :
  exists prompt,
    build_prompt daily_sun = Ok prompt
    /\ substring (lit "SINGLE CARD daily draw") prompt
    /\ substring (lit "Temporary sadness.") prompt.
Proof.
  destruct (C2_daily_prompt_contents daily_sun the_sun_reversed [] eq_refl eq_refl)
    as [prompt [H1 [H2 [_ [H4 _]]]]].
  exists prompt. repeat split; [exact H1 | exact H2 | apply H4; reflexivity].
Defined.

(** C2, as stated, fails for a meaning text that ends in whitespace: the
    final [.strip()] of the daily prompt removes the end of the text. *)
Lemma C2_counterexample :
  exists prompt,
    cards daily_fool_multiline = [the_fool_multiline]
    /\ is_daily daily_fool_multiline = true
    /\ build_prompt daily_fool_multiline = Ok prompt
    /\ meaning the_fool_multiline = lit "New beginnings." ++ [nl]
    /\ contains (meaning the_fool_multiline) prompt = false.
Proof.
  eexists. split; [reflexivity|]. split; [reflexivity|].
  split; [vm_compute; reflexivity|]. split; [reflexivity|].
  vm_compute. reflexivity.
Qed.

(** C3 (as amended).  For a multi-card (non-daily) request the prompt is
    the fixed preamble followed by one card line per input card, joined by
    newlines, in input order; each card line reads
    "- Position: P | Card: N | Orientation: O | MeaningRef: M" with O and M
    chosen by [is_reversed].  When no card's position, name or selected
    meaning contains a newline, the lines of the prompt are exactly the
    preamble lines followed by these card lines, and the lines that open
    with "- Position: " are exactly the card lines, one per card and in
    input order. *)
Theorem C3_multi_card_lines (req : SpreadRequest) :
  is_daily req = false ->
  exists prompt,
    build_prompt req = Ok prompt
    /\ prompt = join [nl] (multi_preamble ++ map card_line (cards req))
    /\ (forall c,
          card_line c =
          lit "- Position: " ++ position c ++ lit " | Card: " ++ name c
          ++ lit " | Orientation: "
          ++ (if is_reversed c then lit "Reversed" else lit "Upright")
          ++ lit " | MeaningRef: "
          ++ (if is_reversed c then reversed_meaning c else upright_meaning c))
    /\ (forallb one_line_card (cards req) = true ->
        split_lines prompt = multi_preamble ++ map card_line (cards req)
        /\ filter position_line (split_lines prompt) = map card_line (cards req)).
Proof.
  intros Hd. eexists. split; [now rewrite build_prompt_eq, Hd|].
  split; [reflexivity|]. split; [reflexivity|].
  intros Hl. rewrite (multi_prompt_lines (cards req) Hl).
  split; [reflexivity|].
  now rewrite filter_app, preamble_no_position_line, filter_card_lines.
Qed.

Lemma C3_witness :
  (exists prompt,
     build_prompt two_cards = Ok prompt
     /\ filter position_line (split_lines prompt)
        = [ lit "- Position: Past | Card: The Tower | Orientation: Upright | MeaningRef: Sudden upheaval.";
            lit "- Position: Future | Card: The Star | Orientation: Reversed | MeaningRef: Loss of faith." ])
  /\ (exists prompt,
        build_prompt two_cards_three_lines = Ok prompt
        /\ prompt = join [nl] (multi_preamble
                                 ++ [card_line the_tower; card_line the_star_two_lines])).
Proof.
  split.
  - destruct (C3_multi_card_lines two_cards eq_refl) as [prompt [H1 [_ [_ H4]]]].
    destruct (H4 eq_refl) as [_ H5].
    exists prompt. split; [exact H1 | exact H5].
  - destruct (C3_multi_card_lines two_cards_three_lines eq_refl)
      as [prompt [H1 [H2 _]]].
    exists prompt. split; [exact H1 | exact H2].
Defined.

(** C3, as stated, fails when a field contains a newline: a meaning of two
    lines puts a third line of the card-line form into the prompt of a
    request with two cards. *)
Lemma C3_counterexample :
  exists prompt,
    is_daily two_cards_three_lines = false
    /\ build_prompt two_cards_three_lines = Ok prompt
    /\ List.length (cards two_cards_three_lines) = 2%nat
    /\ List.length (filter position_line (split_lines prompt)) = 3%nat
    /\ In (card_line the_fool) (split_lines prompt)
    /\ ~ In (card_line the_fool) (map card_line (cards two_cards_three_lines)).
Proof.
  eexists. split; [reflexivity|]. split; [vm_compute; reflexivity|].
  split; [reflexivity|]. split; [vm_compute; reflexivity|].
  split.
  - vm_compute. do 14 right. left. reflexivity.
  - vm_compute. intros [H | [H | H]]; [discriminate | discriminate | exact H].
Qed.

(** C4.  The opener rule of [normalize_output]: after leading whitespace,
    one line is removed, with the newlines that close it, exactly when it
    begins (case-insensitively) with one of the six openers and at least
    one newline follows it; the text is left alone otherwise.  This is the
    only use [normalize_output] makes of its raw input, and for a
    multi-card request it is everything that happens besides trimming.
    For a daily request and the raw text
    "Certainly! Here you go.\n\n**Daily Card — The Fool (Upright):**\nText."
    the opener line goes and the rest is returned unchanged. *)
Theorem C4_opener_line_removed :
  (forall t, sub_del opener_re t = strip_opener_line t)
  /\ (forall t,
        begins_with_opener (lstrip t) = true ->
        drop_while not_nl (lstrip t) <> [] ->
        strip_opener_line t = drop_while is_nl (drop_while not_nl (lstrip t))
        /\ (List.length (strip_opener_line t) < List.length t)%nat)
  /\ (forall t,
        begins_with_opener (lstrip t) = false \/ drop_while not_nl (lstrip t) = [] ->
        strip_opener_line t = t)
  /\ (forall req t t',
        strip_opener_line t = strip_opener_line t' ->
        normalize_output req t = normalize_output req t')
  /\ (forall req t,
        is_daily req = false ->
        normalize_output req t = Ok (strip (strip_opener_line t)))
  /\ (forall req,
        is_daily req = true ->
        normalize_output req opener_example = Ok opener_example_rest)
  /\ strip_opener_line opener_example = opener_example_rest.
Proof.
  split; [exact sub_del_opener|].
  split.
  { intros t Hb Hn.
    pose proof (opener_match_shorter t) as L.
    rewrite strip_opener_line_match. unfold opener_match in *.
    unfold lstrip in *. rewrite Hb in *.
    destruct (drop_while not_nl (drop_while isspace t)) as [|c r]; [congruence|].
    split; [reflexivity | now apply L]. }
  split.
  { intros t H. unfold strip_opener_line, lstrip in *.
    destruct (begins_with_opener _); [|reflexivity].
    destruct H as [H | H]; [discriminate | now rewrite H]. }
  split.
  { intros req t t' H. rewrite !normalize_output_eq. unfold cleaned_daily.
    now rewrite !sub_del_opener, H. }
  split; [exact normalize_multi|].
  split; [|vm_compute; reflexivity].
  intros req Hd. rewrite normalize_output_eq, Hd.
  replace (cleaned_daily opener_example) with opener_example_rest
    by (vm_compute; reflexivity).
  replace (contains (lit "**Daily Card") opener_example_rest) with true
    by (vm_compute; reflexivity).
  cbn [negb]. apply (f_equal Ok). vm_compute. reflexivity.
Qed.

Lemma C4_witness :
  is_daily daily_fool = true
  /\ normalize_output daily_fool opener_example = Ok opener_example_rest
  /\ is_daily two_cards = false
  /\ normalize_output two_cards opener_example = Ok opener_example_rest.
Proof.
  destruct C4_opener_line_removed as [_ [_ [_ [_ [Hm [Hd He]]]]]].
  split; [reflexivity|]. split; [exact (Hd daily_fool eq_refl)|].
  split; [reflexivity|].
  rewrite (Hm two_cards opener_example eq_refl), He.
  vm_compute. reflexivity.
Defined.

(** C5.  For a daily request and a text that, once the opener and the
    Past/Present/Future headings are removed, does not contain
    "**Daily Card", [normalize_output] puts the header line
    "**Daily Card — {name} ({orientation}):**" of the first card in front
    of the text, with "Reversed" for a reversed card and "Upright"
    otherwise; for the card "The Sun", reversed, the result starts with
    "**Daily Card — The Sun (Reversed):**". *)
Theorem C5_header_prepended (req : SpreadRequest) (c : TarotCardInput)
    (cs : list TarotCardInput) (t : str) :
  cards req = c :: cs -> is_daily req = true ->
  contains (lit "**Daily Card") (cleaned_daily t) = false ->
  exists r,
    normalize_output req t = Ok r
    /\ r = strip (daily_header c ++ [nl] ++ cleaned_daily t)
    /\ prefix_of (lit "**Daily Card — " ++ name c ++ lit " ("
                  ++ (if is_reversed c then lit "Reversed" else lit "Upright")
                  ++ lit "):**") r
    /\ (cleaned_daily t <> [] ->
        r = daily_header c ++ [nl] ++ cleaned_daily t)
    /\ (name c = lit "The Sun" -> is_reversed c = true ->
        prefix_of (lit "**Daily Card — The Sun (Reversed):**") r).
Proof.
  intros Hc Hd Hn. exists (under_header c (cleaned_daily t)).
  split; [now rewrite (normalize_daily req c cs t Hc Hd), Hn|].
  split; [symmetry; apply strip_under_header, cleaned_daily_stripped|].
  assert (P : prefix_of (daily_header c) (under_header c (cleaned_daily t)))
    by (eexists; reflexivity).
  split; [exact P|].
  split.
  - intros Hx. unfold under_header. now destruct (cleaned_daily t).
  - intros Hname Hrev. unfold daily_header, orientation in P.
    rewrite Hname, Hrev in P. exact P.
Qed.

Lemma C5_witness :
  normalize_output daily_sun (lit "A bright day.")
  = Ok (lit "**Daily Card — The Sun (Reversed):**" ++ [nl] ++ lit "A bright day.").
Proof.
  destruct (C5_header_prepended daily_sun the_sun_reversed [] (lit "A bright day.")
              eq_refl eq_refl eq_refl) as [r [H1 [H2 _]]].
  rewrite H1, H2. vm_compute. reflexivity.
Defined.

Lemma serve_returned (client : create_args -> outcome) (req : SpreadRequest)
    (c : TarotCardInput) (cs : list TarotCardInput) (prompt : str)
    (answer : completion) :
  cards req = c :: cs -> build_prompt req = Ok prompt ->
  client (request_args prompt) = Returned answer ->
  strip (List.concat (text_parts answer)) = [] ->
  serve client req =
  ([EvBuildPrompt; EvResponsesCreate (request_args prompt)],
   respond (Ok {| interpretation :=
                    if is_daily req then daily_header c ++ [nl] ++ fallback
                    else fallback |})).
Proof.
  intros Hc Hp Hr He. unfold serve.
  rewrite (interpret_spread_returned client req c cs prompt answer [] Hc Hp Hr), He.
  cbn [is_empty]. destruct (is_daily req) eqn:Hd.
  - rewrite (normalize_daily req c cs fallback Hc Hd).
    rewrite fallback_cleaned, fallback_no_marker. reflexivity.
  - rewrite (normalize_multi req fallback Hd), fallback_plain. reflexivity.
Qed.

(** C6 (as amended).  When the completion call succeeds and the text parts
    of its "message" items concatenate to nothing (after trimming), the
    handler makes exactly one call; for a multi-card request the endpoint
    answers 200 and the interpretation is the fallback sentence
    "I'm sorry, I couldn't interpret this spread right now."; for a daily
    request the interpretation is that sentence under the header line
    "**Daily Card — {name} ({orientation}):**" of the first card, and the
    endpoint answers 200 with it when the name can be encoded as UTF-8
    and a plain 500 when the name holds a lone surrogate. *)
Theorem C6_empty_answer_fallback (client : create_args -> outcome)
    (req : SpreadRequest) (c : TarotCardInput) (cs : list TarotCardInput)
    (answer : completion) :
  cards req = c :: cs ->
  (forall prompt, build_prompt req = Ok prompt ->
                  client (request_args prompt) = Returned answer) ->
  strip (List.concat (text_parts answer)) = [] ->
  snd (serve client req)
  = (if is_daily req then
       if encodable (name c)
       then {| status := 200;
               body := Interpretation (daily_header c ++ [nl] ++ fallback) |}
       else {| status := 500; body := InternalServerError |}
     else {| status := 200; body := Interpretation fallback |})
  /\ List.length (calls (fst (serve client req))) = 1%nat
  /\ fallback = lit "I'm sorry, I couldn't interpret this spread right now.".
Proof.
  intros Hc Hr He.
  destruct (build_prompt_ok req c cs Hc) as [prompt Hp].
  rewrite (serve_returned client req c cs prompt answer Hc Hp (Hr prompt Hp) He).
  cbn [fst snd]. split; [|split; reflexivity].
  unfold respond. cbn [interpretation].
  destruct (is_daily req).
  - now rewrite (daily_header_encodable c fallback fallback_encodable).
  - now rewrite fallback_encodable.
Qed.

Lemma C6_witness :
  snd (serve (answering_client [Some (lit "  "); None]) two_cards)
  = {| status := 200;
       body := Interpretation
                 (lit "I'm sorry, I couldn't interpret this spread right now.") |}.
Proof.
  assert (E : strip (List.concat (text_parts (message_answer [Some (lit "  "); None]))) = [])
    by (vm_compute; reflexivity).
  destruct (C6_empty_answer_fallback (answering_client [Some (lit "  "); None])
              two_cards the_tower [the_star] (message_answer [Some (lit "  "); None])
              eq_refl (fun _ _ => eq_refl) E)
    as [H _].
  rewrite H. vm_compute. reflexivity.
Defined.

(** C6, as stated, fails for a daily request: the fallback sentence goes
    through [normalize_output] like any other text and gets the Daily Card
    header. *)
Lemma C6_counterexample :
  cards daily_fool = [the_fool]
  /\ text_parts {| output := Some [] |} = []
  /\ snd (serve (fun _ => Returned {| output := Some [] |}) daily_fool)
     = {| status := 200;
          body := Interpretation
                    (lit "**Daily Card — The Fool (Upright):**" ++ [nl] ++ fallback) |}
  /\ lit "**Daily Card — The Fool (Upright):**" ++ [nl] ++ fallback <> fallback.
Proof.
  split; [reflexivity|]. split; [reflexivity|].
  split; [vm_compute; reflexivity|].
  vm_compute. discriminate.
Qed.

(** C7 (as amended).  Let t be a text in which the opener pattern does not
    match and which, for a daily request, contains "**Daily Card", and let
    r be the result of [normalize_output] on t.  Normalizing r again
    returns r exactly when the request is not daily or neither the opener
    pattern nor the Past/Present/Future heading pattern matches in r:
    removing a heading from t can leave a new heading or an opener line in
    r, and only then does a second pass change the text. *)
Theorem C7_idempotent_exactly (req : SpreadRequest) (t r : str) :
  has_match opener_re t = false ->
  (is_daily req = true -> contains (lit "**Daily Card") t = true) ->
  normalize_output req t = Ok r ->
  (normalize_output req r = Ok r <->
     (is_daily req = true ->
        has_match opener_re r = false /\ has_match heading_re r = false)).
Proof.
  intros Ho Hc Hr. destruct (is_daily req) eqn:Hd.
  - destruct (normalize_daily_result req t r Hd Hr) as [Hs Hm].
    split.
    + intros H _.
      destruct (has_match opener_re r) eqn:E1;
        [exfalso; apply (normalize_daily_moves req r Hd Hs); [now left | exact H]|].
      destruct (has_match heading_re r) eqn:E2;
        [exfalso; apply (normalize_daily_moves req r Hd Hs); [now right | exact H]|].
      now split.
    + intros H. destruct (H eq_refl) as [H1 H2].
      now apply normalize_daily_fixed.
  - split; [intros _ H; discriminate|]. intros _.
    rewrite (normalize_multi req t Hd), (strip_opener_line_plain t Ho) in Hr.
    apply Ok_inj in Hr. subst r.
    rewrite (normalize_multi req _ Hd).
    rewrite (strip_opener_line_plain _ (has_match_opener_strip t Ho)).
    now rewrite strip_idem.
Qed.

Lemma C7_witness :
  normalize_output daily_fool one_heading_text = Ok nested_heading_twice
  /\ normalize_output daily_fool nested_heading_twice = Ok nested_heading_twice.
Proof.
  assert (H1 : normalize_output daily_fool one_heading_text = Ok nested_heading_twice)
    by (vm_compute; reflexivity).
  assert (Ho : has_match opener_re one_heading_text = false)
    by (vm_compute; reflexivity).
  assert (Hc : contains (lit "**Daily Card") one_heading_text = true)
    by (vm_compute; reflexivity).
  assert (R1 : has_match opener_re nested_heading_twice = false)
    by (vm_compute; reflexivity).
  assert (R2 : has_match heading_re nested_heading_twice = false)
    by (vm_compute; reflexivity).
  split; [exact H1|].
  apply (proj2 (C7_idempotent_exactly daily_fool one_heading_text nested_heading_twice
                  Ho (fun _ => Hc) H1)).
  intros _. split; [exact R1 | exact R2].
Defined.

(** C7, as stated, fails for a daily request: the text below has no opener
    and contains "**Daily Card", yet removing the inner Past heading
    leaves a new one, which only the second pass removes. *)
Lemma C7_counterexample :
  is_daily daily_fool = true
  /\ has_match opener_re nested_heading_text = false
  /\ begins_with_opener (lstrip nested_heading_text) = false
  /\ contains (lit "**Daily Card") nested_heading_text = true
  /\ normalize_output daily_fool nested_heading_text = Ok nested_heading_once
  /\ normalize_output daily_fool nested_heading_once = Ok nested_heading_twice
  /\ nested_heading_once <> nested_heading_twice.
Proof.
  split; [reflexivity|]. split; [vm_compute; reflexivity|].
  split; [vm_compute; reflexivity|]. split; [vm_compute; reflexivity|].
  split; [vm_compute; reflexivity|]. split; [vm_compute; reflexivity|].
  vm_compute. discriminate.
Qed.

(** C8.  For a request whose card list is empty the endpoint answers 400
    with detail "No cards provided"; the trace is empty, so no prompt was
    built and the completion service was not called. *)
Theorem C8_no_cards_rejected (client : create_args -> outcome)
    (req : SpreadRequest) :
  cards req = [] ->
  serve client req =
  ([], {| status := 400; body := Detail (lit "No cards provided") |}).
Proof.
  intros H. unfold serve. now rewrite (interpret_spread_empty client req [] H).
Qed.

Lemma C8_witness :
  serve (answering_client [Some (lit "Text.")]) no_cards
  = ([], {| status := 400; body := Detail (lit "No cards provided") |}).
Proof.
  exact (C8_no_cards_rejected (answering_client [Some (lit "Text.")]) no_cards eq_refl).
Defined.

(** C9 (as amended).  For a non-empty request, when the completion call
    raises an error with message m, the endpoint answers 500 after
    exactly one call (no retry) and without an interpretation; the answer
    carries the detail "OpenAI request failed: " followed by m when m can
    be encoded as UTF-8, and is a plain 500 without detail when m holds a
    lone surrogate. *)
Theorem C9_upstream_failure (client : create_args -> outcome)
    (req : SpreadRequest) (c : TarotCardInput) (cs : list TarotCardInput)
    (message : str) :
  cards req = c :: cs ->
  (forall prompt, build_prompt req = Ok prompt ->
                  client (request_args prompt) = Raised message) ->
  exists prompt,
    build_prompt req = Ok prompt
    /\ fst (serve client req)
       = [EvBuildPrompt; EvResponsesCreate (request_args prompt)]
    /\ calls (fst (serve client req)) = [request_args prompt]
    /\ status (snd (serve client req)) = 500
    /\ body (snd (serve client req))
       = (if encodable message
          then Detail (lit "OpenAI request failed: " ++ message)
          else InternalServerError).
Proof.
  intros Hc Hr.
  destruct (build_prompt_ok req c cs Hc) as [prompt Hp].
  exists prompt. split; [exact Hp|].
  unfold serve.
  rewrite (interpret_spread_raised client req c cs prompt message []
             Hc Hp (Hr prompt Hp)).
  cbn [fst snd]. split; [reflexivity|]. split; [reflexivity|].
  unfold respond. rewrite encodable_app.
  change (encodable (lit "OpenAI request failed: ")) with true. cbn [andb].
  destruct (encodable message); split; reflexivity.
Qed.

Lemma C9_witness :
  snd (serve (failing_client (lit "timeout")) two_cards)
  = {| status := 500; body := Detail (lit "OpenAI request failed: timeout") |}.
Proof.
  destruct (C9_upstream_failure (failing_client (lit "timeout")) two_cards
              the_tower [the_star] (lit "timeout") eq_refl (fun _ _ => eq_refl))
    as [prompt [_ [_ [_ [H4 H5]]]]].
  destruct (snd (serve (failing_client (lit "timeout")) two_cards)) as [st bd].
  cbn [status body] in H4, H5. rewrite H4, H5. reflexivity.
Defined.

(** C9, as stated, fails for a message that cannot be encoded: with a
    lone surrogate as message the answer is a plain 500 and carries no
    detail. *)
Lemma C9_counterexample :
  cards two_cards = [the_tower; the_star]
  /\ failing_client lone_surrogate (request_args []) = Raised lone_surrogate
  /\ snd (serve (failing_client lone_surrogate) two_cards)
     = {| status := 500; body := InternalServerError |}
  /\ body (snd (serve (failing_client lone_surrogate) two_cards))
     <> Detail (lit "OpenAI request failed: " ++ lone_surrogate).
Proof.
  split; [reflexivity|]. split; [reflexivity|].
  split; [vm_compute; reflexivity|].
  vm_compute. discriminate.
Qed.

(** C10.  For a daily request with at least one card and any text, the
    result of [normalize_output] contains "**Daily Card" and has no
    whitespace at either end. *)
Theorem C10_daily_result_shape (req : SpreadRequest) (c : TarotCardInput)
    (cs : list TarotCardInput) (t : str) :
  cards req = c :: cs -> is_daily req = true ->
  exists r,
    normalize_output req t = Ok r
    /\ substring (lit "**Daily Card") r
    /\ no_outer_space r
    /\ strip r = r.
Proof.
  intros Hc Hd. rewrite (normalize_daily req c cs t Hc Hd).
  eexists. split; [reflexivity|].
  destruct (contains (lit "**Daily Card") (cleaned_daily t)) eqn:E.
  - split; [now apply contains_iff|].
    split; [apply strip_no_outer_space | apply strip_idem].
  - rewrite <- (strip_under_header c (cleaned_daily t) (cleaned_daily_stripped t)).
    split; [|split; [apply strip_no_outer_space | apply strip_idem]].
    rewrite (strip_under_header c (cleaned_daily t) (cleaned_daily_stripped t)).
    exists [], (lit " — " ++ name c ++ lit " (" ++ orientation c ++ lit "):**"
                ++ match cleaned_daily t with [] => [] | _ => nl :: cleaned_daily t end).
    unfold under_header, daily_header. rewrite <- !app_assoc. reflexivity.
Qed.

Lemma C10_witness :
  exists r,
    normalize_output single_card_three_card_type (lit " Sure!") = Ok r
    /\ substring (lit "**Daily Card") r
    /\ no_outer_space r.
Proof.
  destruct (C10_daily_result_shape single_card_three_card_type the_fool []
              (lit " Sure!") eq_refl eq_refl) as [r [H1 [H2 [H3 _]]]].
  exists r. split; [exact H1 | split; [exact H2 | exact H3]].
Defined.

(* ================================================================= *)
(** * Further properties of the prompt builder *)

(** X1.  [build_prompt] raises (an IndexError, from [req.cards[0]])
    exactly for a request without cards whose spread type is "daily";
    without cards and with another spread type it returns the bare
    preamble of the multi-card prompt. *)
Theorem X1_build_prompt_raises (req : SpreadRequest) :
  (build_prompt req = Raise IndexError <->
     cards req = [] /\ spread_type req = lit "daily")
  /\ (forall e, build_prompt req = Raise e -> e = IndexError)
  /\ (cards req = [] -> spread_type req <> lit "daily" ->
      build_prompt req = Ok (join [nl] multi_preamble)).
Proof.
  rewrite build_prompt_eq.
  destruct (cards req) as [|c cs] eqn:Hc.
  - rewrite (is_daily_no_cards req Hc).
    destruct (Str.eqb (spread_type req) (lit "daily")) eqn:E.
    + apply eqb_eq in E. repeat split; congruence.
    + apply eqb_neq in E. split; [split; [discriminate | tauto]|].
      split; [discriminate|]. intros _ _. cbn [map]. now rewrite app_nil_r.
  - destruct (is_daily req); (split; [split; [discriminate | intros [H _]; discriminate]|]);
      (split; [discriminate | discriminate]).
Qed.

Lemma X1_witness :
  build_prompt no_cards = Raise IndexError
  /\ build_prompt no_cards_three_card_type = Ok (join [nl] multi_preamble).
Proof.
  split.
  - apply (proj1 (X1_build_prompt_raises no_cards)). split; reflexivity.
  - apply (proj2 (proj2 (X1_build_prompt_raises no_cards_three_card_type)));
      [reflexivity | discriminate].
Defined.

(** X2.  In daily mode only the first card counts: a daily request with
    further cards gets the prompt, and the normalized output, of the
    request that holds its first card alone, whatever spread type that
    request names. *)
Theorem X2_daily_first_card_only (req : SpreadRequest) (c : TarotCardInput)
    (cs : list TarotCardInput) (st : str) :
  cards req = c :: cs -> is_daily req = true ->
  build_prompt req = build_prompt {| spread_type := st; cards := [c] |}
  /\ forall t,
       normalize_output req t
       = normalize_output {| spread_type := st; cards := [c] |} t.
Proof.
  intros Hc Hd. split.
  - now rewrite !build_prompt_eq, Hd, Hc, is_daily_single.
  - intros t.
    rewrite (normalize_daily req c cs t Hc Hd).
    now rewrite (normalize_daily {| spread_type := st; cards := [c] |} c [] t
                   eq_refl (is_daily_single st c)).
Qed.

Lemma X2_witness :
  build_prompt daily_two_cards = build_prompt single_card_three_card_type
  /\ normalize_output daily_two_cards (lit "Text.")
     = normalize_output single_card_three_card_type (lit "Text.").
Proof.
  destruct (X2_daily_first_card_only daily_two_cards the_fool [the_star]
              (lit "three_card") eq_refl eq_refl) as [H1 H2].
  split; [exact H1 | exact (H2 (lit "Text."))].
Defined.

(** X3.  The prompt depends on a card only through its name, position,
    orientation and the meaning selected by the orientation: two requests
    of the same spread type whose cards agree on these get the same
    prompt, whatever their suit, number, keywords, image name, arcana and
    unselected meaning are. *)
Theorem X3_prompt_reads_four_fields (r1 r2 : SpreadRequest) :
  spread_type r1 = spread_type r2 ->
  map prompt_fields (cards r1) = map prompt_fields (cards r2) ->
  build_prompt r1 = build_prompt r2.
Proof.
  intros Hs Hc.
  assert (Hd : is_daily r1 = is_daily r2).
  { unfold is_daily. rewrite Hs.
    now rewrite <- (length_map prompt_fields (cards r1)), Hc, length_map. }
  rewrite !build_prompt_eq, Hd, (card_lines_fields _ _ Hc).
  destruct (cards r1) as [|c1 cs1], (cards r2) as [|c2 cs2];
    try discriminate; [reflexivity|].
  cbn [map] in Hc. apply cons_eq_inv in Hc as [Hc _].
  now rewrite (daily_template_fields c1 c2 Hc).
Qed.

Lemma X3_witness :
  build_prompt {| spread_type := lit "daily"; cards := [the_fool_annotated] |}
  = build_prompt daily_fool.
Proof.
  exact (X3_prompt_reads_four_fields
           {| spread_type := lit "daily"; cards := [the_fool_annotated] |}
           daily_fool eq_refl eq_refl).
Defined.

(** X4.  The daily prompt asks for the very header line the normalizer
    falls back to: it contains "**Daily Card — {name} ({orientation}):**"
    of the first card at the end of a line, followed by the
    "**Overall Message:**" section, and it has no whitespace at either
    end. *)
Theorem X4_daily_prompt_names_header (req : SpreadRequest) (c : TarotCardInput)
    (cs : list TarotCardInput) :
  cards req = c :: cs -> is_daily req = true ->
  exists prompt,
    build_prompt req = Ok prompt
    /\ substring (daily_header c ++ [nl]) prompt
    /\ substring (lit "**Overall Message:**") prompt
    /\ no_outer_space prompt.
Proof.
  intros Hc Hd. exists (strip (daily_template c)).
  split; [now rewrite build_prompt_eq, Hd, Hc|].
  split; [|split; [|apply strip_no_outer_space]];
    rewrite daily_prompt_shape;
    destruct daily_intro_marker as [a Ha];
    destruct daily_outro_parts as [b [Hb [x [y Hxy]]]];
    revert Ha Hb; generalize daily_intro, daily_outro; intros i o -> ->.
  - exists a, (b ++ meaning_tail c). unfold daily_header.
    rewrite <- !app_assoc. reflexivity.
  - exists (a ++ lit "**Daily Card — " ++ name c ++ lit " (" ++ orientation c
              ++ lit "):**" ++ [nl] ++ x), (y ++ meaning_tail c).
    rewrite Hxy, <- !app_assoc. reflexivity.
Qed.

Lemma X4_witness :
  exists prompt,
    build_prompt daily_sun = Ok prompt
    /\ substring (lit "**Daily Card — The Sun (Reversed):**" ++ [nl]) prompt.
Proof.
  destruct (X4_daily_prompt_names_header daily_sun the_sun_reversed []
              eq_refl eq_refl) as [prompt [H1 [H2 _]]].
  exists prompt. split; [exact H1 | exact H2].
Defined.

(* ================================================================= *)
(** * Further properties of the normalizer *)

(** X5.  [normalize_output] raises (an IndexError, from [req.cards[0]])
    exactly when the request has no cards, its spread type is "daily" and
    the cleaned text lacks "**Daily Card"; in every other case it returns
    a text. *)
Theorem X5_normalize_output_raises (req : SpreadRequest) (t : str) :
  (normalize_output req t = Raise IndexError <->
     cards req = [] /\ spread_type req = lit "daily"
     /\ contains (lit "**Daily Card") (cleaned_daily t) = false)
  /\ (forall e, normalize_output req t = Raise e -> e = IndexError).
Proof.
  rewrite normalize_output_eq.
  destruct (cards req) as [|c cs] eqn:Hc.
  - rewrite (is_daily_no_cards req Hc).
    destruct (Str.eqb (spread_type req) (lit "daily")) eqn:E.
    + apply eqb_eq in E.
      destruct (contains (lit "**Daily Card") (cleaned_daily t)); cbn [negb].
      * split; [split; [discriminate | intros [_ [_ H]]; discriminate]|discriminate].
      * split; [tauto | congruence].
    + apply eqb_neq in E. split; [split; [discriminate | tauto] | discriminate].
  - destruct (is_daily req);
      [destruct (negb (contains (lit "**Daily Card") (cleaned_daily t)))|];
      (split; [split; [discriminate | intros [H _]; discriminate] | discriminate]).
Qed.

Lemma X5_witness :
  normalize_output no_cards (lit "Text.") = Raise IndexError
  /\ normalize_output no_cards opener_example = Ok opener_example_rest.
Proof.
  split.
  - apply (proj1 (X5_normalize_output_raises no_cards (lit "Text."))).
    split; [reflexivity|]. split; [reflexivity|]. vm_compute. reflexivity.
  - vm_compute. reflexivity.
Defined.

(** X6.  Whatever the request and the text, a text returned by
    [normalize_output] has no whitespace at either end: it is its own
    [strip]. *)
Theorem X6_normalize_output_trimmed (req : SpreadRequest) (t r : str) :
  normalize_output req t = Ok r -> strip r = r /\ no_outer_space r.
Proof.
  rewrite normalize_output_eq. intros H.
  assert (E : exists x, r = strip x).
  { destruct (is_daily req);
      [destruct (negb (contains (lit "**Daily Card") (cleaned_daily t)));
       [destruct (cards req); [discriminate|]|]|];
      apply Ok_inj in H; eauto. }
  destruct E as [x ->]. split; [apply strip_idem | apply strip_no_outer_space].
Qed.

Lemma X6_witness :
  strip (lit "Keep going.") = lit "Keep going."
  /\ normalize_output two_cards (lit "  Keep going. " ++ [nl]) = Ok (lit "Keep going.").
Proof.
  assert (H : normalize_output two_cards (lit "  Keep going. " ++ [nl])
              = Ok (lit "Keep going.")) by (vm_compute; reflexivity).
  split; [exact (proj1 (X6_normalize_output_trimmed two_cards _ _ H)) | exact H].
Defined.

(** X7.  Only one opener line is removed.  For a multi-card request and a
    text that opens with an opener line closed by one newline, the result
    is the trimmed rest of the text, even when that rest begins with an
    opener itself. *)
Theorem X7_single_opener_line (req : SpreadRequest) (w tail t' : str) :
  is_daily req = false ->
  In w openers -> no_newline tail = true -> (forall r, t' <> nl :: r) ->
  normalize_output req (w ++ tail ++ [nl] ++ t') = Ok (strip t').
Proof.
  intros Hd Hw Ht Hn.
  now rewrite (normalize_multi req _ Hd), (strip_opener_line_head w tail t' Hw Ht Hn).
Qed.

Lemma X7_witness :
  normalize_output two_cards
    (lit "Sure!" ++ lit " Here it is." ++ [nl] ++ (lit "Okay!" ++ [nl] ++ lit "Text."))
  = Ok (lit "Okay!" ++ [nl] ++ lit "Text.").
Proof.
  rewrite (X7_single_opener_line two_cards (lit "Sure!") (lit " Here it is.")
             (lit "Okay!" ++ [nl] ++ lit "Text.") eq_refl).
  - vm_compute. reflexivity.
  - right. left. reflexivity.
  - reflexivity.
  - intros r H. discriminate.
Defined.

(** X8.  A daily request and a text without an opener and without any
    asterisk: the text is only trimmed and put under the header line of
    the first card. *)
Theorem X8_daily_plain_text (req : SpreadRequest) (c : TarotCardInput)
    (cs : list TarotCardInput) (t : str) :
  cards req = c :: cs -> is_daily req = true ->
  has_match opener_re t = false -> no_star t = true ->
  normalize_output req t = Ok (under_header c (strip t)).
Proof.
  intros Hc Hd Ho Hs.
  rewrite (normalize_daily req c cs t Hc Hd).
  rewrite (cleaned_daily_plain t Ho (finds_heading_no_star t true Hs)).
  now rewrite (no_star_no_marker _ (no_star_strip t Hs)).
Qed.

Lemma X8_witness :
  normalize_output daily_fool (lit " A fresh start. ")
  = Ok (lit "**Daily Card — The Fool (Upright):**" ++ [nl] ++ lit "A fresh start.").
Proof.
  rewrite (X8_daily_plain_text daily_fool the_fool [] (lit " A fresh start. ")
             eq_refl eq_refl).
  - vm_compute. reflexivity.
  - vm_compute. reflexivity.
  - reflexivity.
Defined.

(** X9.  A daily request and an answer that opens with a heading
    "**Past — title**", "**Present — title**" or "**Future — title**"
    (the title on one line; no asterisk in the title or in the body that
    follows): the heading is removed with the colon and the whitespace
    behind it, and the trimmed body is returned under the header line of
    the first card. *)
Theorem X9_daily_heading_removed (req : SpreadRequest) (c : TarotCardInput)
    (cs : list TarotCardInput) (kw title body : str) :
  cards req = c :: cs -> is_daily req = true ->
  In kw heading_words ->
  no_star title = true -> no_newline title = true -> no_star body = true ->
  normalize_output req (lit "**" ++ kw ++ lit " — " ++ title ++ lit "**" ++ body)
  = Ok (under_header c (strip (drop_colon body))).
Proof.
  intros Hc Hd Hk Hs Hn Hb.
  rewrite (normalize_daily req c cs _ Hc Hd).
  rewrite (cleaned_daily_heading_text kw title body Hk Hs Hn Hb).
  now rewrite (no_star_no_marker _ (no_star_strip _ (no_star_drop_colon body Hb))).
Qed.

Lemma X9_witness :
  normalize_output daily_fool
    (lit "**" ++ lit "Present" ++ lit " — " ++ lit "The Fool (Upright):" ++ lit "**"
       ++ ([nl] ++ lit "A leap of faith." ++ [nl]))
  = Ok (lit "**Daily Card — The Fool (Upright):**" ++ [nl] ++ lit "A leap of faith.").
Proof.
  rewrite (X9_daily_heading_removed daily_fool the_fool [] (lit "Present")
             (lit "The Fool (Upright):") ([nl] ++ lit "A leap of faith." ++ [nl])
             eq_refl eq_refl).
  - vm_compute. reflexivity.
  - right. left. reflexivity.
  - reflexivity.
  - reflexivity.
  - reflexivity.
Defined.

(* ================================================================= *)
(** * Further properties of the route *)

(** X10.  The text taken from an answer is the concatenation, in order,
    of the texts of all parts of all items of type "message": items of
    another type, items without content and parts without text add
    nothing, so skipping the empty texts is not visible in the result; an
    answer without output gives the empty text, and the texts of two
    lists of items are joined in order. *)
Theorem X10_answer_text_is_concatenation :
  (forall answer,
     List.concat (text_parts answer)
     = match output answer with
       | Some items => List.concat (map item_text items)
       | None => []
       end)
  /\ (forall items1 items2,
        List.concat (text_parts {| output := Some (items1 ++ items2) |})
        = List.concat (text_parts {| output := Some items1 |})
          ++ List.concat (text_parts {| output := Some items2 |})).
Proof.
  assert (A : forall answer,
             List.concat (text_parts answer)
             = match output answer with
               | Some items => List.concat (map item_text items)
               | None => []
               end).
  { intros answer. unfold text_parts.
    destruct (output answer); [apply concat_item_texts | reflexivity]. }
  split; [exact A|].
  intros items1 items2. rewrite !A. cbn [output].
  now rewrite map_app, concat_app.
Qed.

(** X11.  Whatever the completion service does, the endpoint answers 200,
    400 or 500; it answers 400 exactly when the request has no cards,
    which is also exactly when the service is not called; for a request
    with cards the service is called exactly once, with the model
    "gpt-4.1-mini", at most 700 output tokens, and the fixed preamble
    followed by the built prompt as input.  The handler never lets an
    IndexError escape, so a plain 500 can only come from an
    interpretation or a detail that cannot be encoded. *)
Theorem X11_endpoint_outcomes (client : create_args -> outcome)
    (req : SpreadRequest) :
  (status (snd (serve client req)) = 200
   \/ status (snd (serve client req)) = 400
   \/ status (snd (serve client req)) = 500)
  /\ (status (snd (serve client req)) = 400 <-> cards req = [])
  /\ (calls (fst (serve client req)) = [] <-> cards req = [])
  /\ (forall c cs, cards req = c :: cs ->
        exists prompt,
          build_prompt req = Ok prompt
          /\ calls (fst (serve client req))
             = [ {| model := lit "gpt-4.1-mini";
                    input := system_preamble ++ prompt;
                    max_output_tokens := 700 |} ])
  /\ snd (interpret_spread client req []) <> Raise IndexError
  /\ (body (snd (serve client req)) = InternalServerError ->
      exists s,
        encodable s = false
        /\ (snd (interpret_spread client req []) = Ok {| interpretation := s |}
            \/ snd (interpret_spread client req []) = Raise (HTTPException 500 s))).
Proof.
  rewrite serve_eq.
  destruct (handler_cases client req)
    as [[Hc E] | [c [cs [prompt [Hc [Hp [[message [_ E]] | [answer [r [_ [_ E]]]]]]]]]]];
    rewrite E; cbn [fst snd calls flat_map app]; unfold respond; cbn [interpretation].
  - change (encodable (lit "No cards provided")) with true. cbv iota.
    cbn [status body].
    repeat split; try discriminate; auto. intros c cs H. congruence.
  - rewrite Hc.
    destruct (encodable (lit "OpenAI request failed: " ++ message)) eqn:En;
      cbn [status body]; repeat split; try discriminate; auto;
      try (intros c' cs' _; now exists prompt).
    intros _. exists (lit "OpenAI request failed: " ++ message). split; [exact En | now right].
  - rewrite Hc.
    destruct (encodable r) eqn:En;
      cbn [status body]; repeat split; try discriminate; auto;
      try (intros c' cs' _; now exists prompt).
    intros _. exists r. split; [exact En | now left].
Qed.

Lemma X11_witness :
  exists prompt,
    build_prompt two_cards = Ok prompt
    /\ calls (fst (serve (failing_client (lit "timeout")) two_cards))
       = [ {| model := lit "gpt-4.1-mini";
              input := system_preamble ++ prompt;
              max_output_tokens := 700 |} ].
Proof.
  exact (proj1 (proj2 (proj2 (proj2
           (X11_endpoint_outcomes (failing_client (lit "timeout")) two_cards))))
           the_tower [the_star] eq_refl).
Defined.

(** X12.  An answer with status 200 never carries an empty or blank
    interpretation: whatever the completion service returned, the
    interpretation is not empty and has no whitespace at either end. *)
Theorem X12_interpretation_not_empty (client : create_args -> outcome)
    (req : SpreadRequest) (s : str) :
  body (snd (serve client req)) = Interpretation s ->
  s <> [] /\ strip s = s /\ status (snd (serve client req)) = 200.
Proof.
  rewrite serve_eq.
  destruct (handler_cases client req)
    as [[Hc E] | [c [cs [prompt [Hc [Hp [[message [_ E]] | [answer [r [_ [Hn E]]]]]]]]]]];
    rewrite E; cbn [fst snd]; unfold respond; cbn [interpretation].
  - destruct (encodable _); discriminate.
  - destruct (encodable _); discriminate.
  - destruct (encodable r); cbn [body status]; intros H; [|discriminate].
    assert (R : r = s) by congruence. subst r.
    destruct (answer_text_shape answer) as [A1 A2].
    split; [exact (normalize_output_not_empty req c cs _ s Hc A1 A2 Hn)|].
    split; [|reflexivity].
    rewrite normalize_output_eq in Hn.
    destruct (is_daily req);
      [destruct (negb _); [rewrite Hc in Hn|]|];
      apply Ok_inj in Hn; subst s; apply strip_idem.
Qed.

Lemma X12_witness :
  exists s,
    body (snd (serve (answering_client [Some (lit "Sure!" ++ [nl] ++ lit "Text.")])
                 two_cards)) = Interpretation s
    /\ s <> [].
Proof.
  exists (lit "Text.").
  assert (H : body (snd (serve (answering_client [Some (lit "Sure!" ++ [nl] ++ lit "Text.")])
                           two_cards)) = Interpretation (lit "Text."))
    by (vm_compute; reflexivity).
  split; [exact H|].
  exact (proj1 (X12_interpretation_not_empty _ two_cards (lit "Text.") H)).
Defined.

(* ================================================================= *)
(** * Further properties across the stages *)

(** X13.  The multi-card prompt is not trimmed: for every card of a
    multi-card request the prompt holds the card's line in full, and with
    it the position, the name and the selected meaning exactly as given,
    trailing whitespace included. *)
Theorem X13_multi_prompt_verbatim (req : SpreadRequest) (c : TarotCardInput) :
  is_daily req = false -> In c (cards req) ->
  exists prompt,
    build_prompt req = Ok prompt
    /\ substring (card_line c) prompt
    /\ substring (position c) prompt
    /\ substring (name c) prompt
    /\ substring (meaning c) prompt.
Proof.
  intros Hd Hc. eexists. split; [now rewrite build_prompt_eq, Hd|].
  assert (L : substring (card_line c)
                (join [nl] (multi_preamble ++ map card_line (cards req)))).
  { apply substring_join_in, in_or_app. right. now apply in_map. }
  destruct (card_line_holds_fields c) as [Hp [Hn Hm]].
  split; [exact L|]. split; [|split]; eapply substring_trans; eassumption.
Qed.

Lemma X13_witness :
  exists prompt,
    build_prompt two_cards_three_lines = Ok prompt
    /\ substring (lit "Hope." ++ [nl] ++ card_line the_fool) prompt.
Proof.
  destruct (X13_multi_prompt_verbatim two_cards_three_lines the_star_two_lines
              eq_refl (or_intror (or_introl eq_refl)))
    as [prompt [H1 [_ [_ [_ H5]]]]].
  exists prompt. split; [exact H1 | exact H5].
Defined.

(** X14.  A daily request and a text that opens with an opener line
    closed by one newline, with no asterisk in what follows: the opener
    line goes, and the trimmed rest is returned under the header line of
    the first card. *)
Theorem X14_daily_opener_then_header (req : SpreadRequest) (c : TarotCardInput)
    (cs : list TarotCardInput) (w tail t' : str) :
  cards req = c :: cs -> is_daily req = true ->
  In w openers -> no_newline tail = true -> (forall r, t' <> nl :: r) ->
  no_star t' = true ->
  normalize_output req (w ++ tail ++ [nl] ++ t') = Ok (under_header c (strip t')).
Proof.
  intros Hc Hd Hw Ht Hn Hs.
  rewrite (normalize_daily req c cs _ Hc Hd).
  assert (E : cleaned_daily (w ++ tail ++ [nl] ++ t') = strip t').
  { unfold cleaned_daily.
    rewrite sub_del_opener, (strip_opener_line_head w tail t' Hw Ht Hn).
    rewrite (sub_del_no_match heading_re (strip t')
               (finds_heading_no_star _ true (no_star_strip t' Hs))).
    apply strip_idem. }
  now rewrite E, (no_star_no_marker _ (no_star_strip t' Hs)).
Qed.

Lemma X14_witness :
  normalize_output daily_sun (lit "Certainly!" ++ lit " Here you go." ++ [nl]
                                ++ lit "Clouds will pass. ")
  = Ok (lit "**Daily Card — The Sun (Reversed):**" ++ [nl] ++ lit "Clouds will pass.").
Proof.
  rewrite (X14_daily_opener_then_header daily_sun the_sun_reversed []
             (lit "Certainly!") (lit " Here you go.") (lit "Clouds will pass. ")
             eq_refl eq_refl).
  - vm_compute. reflexivity.
  - left. reflexivity.
  - reflexivity.
  - intros r H. discriminate.
  - reflexivity.
Defined.

(** X15.  A multi-card request whose answer, once its text parts are
    joined and trimmed, is not empty and has no opener line: the handler
    makes one call and returns that trimmed text unchanged; the endpoint
    answers 200 with it when the text can be encoded as UTF-8, and a
    plain 500 when it holds a lone surrogate. *)
Theorem X15_multi_card_pass_through (client : create_args -> outcome)
    (req : SpreadRequest) (c : TarotCardInput) (cs : list TarotCardInput)
    (answer : completion) :
  cards req = c :: cs -> is_daily req = false ->
  (forall prompt, build_prompt req = Ok prompt ->
                  client (request_args prompt) = Returned answer) ->
  strip (List.concat (text_parts answer)) <> [] ->
  has_match opener_re (strip (List.concat (text_parts answer))) = false ->
  snd (interpret_spread client req [])
  = Ok {| interpretation := strip (List.concat (text_parts answer)) |}
  /\ snd (serve client req)
     = (if encodable (strip (List.concat (text_parts answer)))
        then {| status := 200;
                body := Interpretation (strip (List.concat (text_parts answer))) |}
        else {| status := 500; body := InternalServerError |})
  /\ List.length (calls (fst (serve client req))) = 1%nat.
Proof.
  intros Hc Hd Hr Hx Ho.
  destruct (build_prompt_ok req c cs Hc) as [prompt Hp].
  rewrite serve_eq.
  rewrite (interpret_spread_returned client req c cs prompt answer []
             Hc Hp (Hr prompt Hp)).
  destruct (strip (List.concat (text_parts answer))) as [|d x] eqn:E;
    [now contradiction Hx|].
  cbn [is_empty]. rewrite (normalize_multi req _ Hd).
  rewrite (strip_opener_line_plain _ Ho), <- E, strip_idem.
  cbn [fst snd]. repeat split.
Qed.

Lemma X15_witness :
  snd (serve (answering_client [Some (lit " The Tower falls; "); None;
                                Some (lit "the Star rises. ")]) two_cards)
  = {| status := 200;
       body := Interpretation (lit "The Tower falls; the Star rises.") |}.
Proof.
  assert (E : strip (List.concat (text_parts
                (message_answer [Some (lit " The Tower falls; "); None;
                                 Some (lit "the Star rises. ")])))
              = lit "The Tower falls; the Star rises.") by (vm_compute; reflexivity).
  destruct (X15_multi_card_pass_through
              (answering_client [Some (lit " The Tower falls; "); None;
                                 Some (lit "the Star rises. ")])
              two_cards the_tower [the_star]
              (message_answer [Some (lit " The Tower falls; "); None;
                               Some (lit "the Star rises. ")])
              eq_refl eq_refl (fun _ _ => eq_refl)) as [_ [H _]].
  - rewrite E. discriminate.
  - rewrite E. vm_compute. reflexivity.
  - rewrite H, E. reflexivity.
Defined.
